(** * core/config.py: environment-dependent configuration

    A shallow embedding of [core/config.py] and the properties of its
    configuration resolver.

    Modelling conventions.
    - A Python [str] is a [string], the sequence of its bytes. [str.lower]
      maps the ASCII capitals and leaves every other byte alone (no
      character outside ASCII lowercases to a string of the literals the
      module compares against). [int] reads ASCII digits, signs, underscores
      and whitespace; digits and spaces outside ASCII are not modelled.
      Integers are unbounded and convert to and from decimal at any size.
    - [os.environ] is a finite map from names to values.
    - A raised exception is a value of [exn]; code that can raise lives in
      the [result] monad, code that also touches the file system or the
      logger in the state monad [M].
    - A class is its name, its base and its own dictionary; attribute
      lookup climbs the bases as Python's does.
    - The file system is an interface ([FileSystem]); the theorems about
      [get_config] hold for every implementation of it. *)

From Stdlib Require Import ZArith NArith Ascii String List Lia.
From stdpp Require Import base option gmap strings list.

Local Open Scope string_scope.

(** ** Exceptions *)

Inductive exn_class : Type :=
  | BaseException | KeyboardInterrupt | Exception
  | AttributeError | KeyError | TypeError | ValueError | RuntimeError
  | OSError | FileExistsError | FileNotFoundError
  | PermissionError | NotADirectoryError.

#[global] Instance exn_class_eq_dec : EqDecision exn_class.
Proof. solve_decision. Defined.

(** The direct base of each built-in exception class. *)
Definition exn_base (c : exn_class) : option exn_class :=
  match c with
  | BaseException => None
  | KeyboardInterrupt | Exception => Some BaseException
  | AttributeError | KeyError | TypeError | ValueError | RuntimeError
  | OSError => Some Exception
  | FileExistsError | FileNotFoundError | PermissionError
  | NotADirectoryError => Some OSError
  end.

Fixpoint issubclass_fuel (fuel : nat) (c d : exn_class) : bool :=
  if decide (c = d) then true
  else match fuel, exn_base c with
       | S f, Some b => issubclass_fuel f b d
       | _, _ => false
       end.

(** The hierarchy above is three levels deep. *)
Definition issubclass : exn_class → exn_class → bool := issubclass_fuel 3.

Record exn : Type := Exn { exn_type : exn_class; exn_str : string }.

Inductive result (A : Type) : Type :=
  | Ok (a : A)
  | Raise (e : exn).
Arguments Ok {A} a.
Arguments Raise {A} e.

#[global] Instance result_ret : MRet result := λ A a, Ok a.
#[global] Instance result_bind : MBind result := λ A B f m,
  match m with
  | Ok a => f a
  | Raise e => Raise e
  end.

(** [try: body except (classes): handler]. *)
Definition try_except {A} (body : result A) (classes : list exn_class)
    (handler : exn → result A) : result A :=
  match body with
  | Ok a => Ok a
  | Raise e =>
      if existsb (issubclass (exn_type e)) classes then handler e
      else Raise e
  end.

(** ** Strings *)

Definition is_upper (c : ascii) : bool :=
  (65 <=? N_of_ascii c)%N && (N_of_ascii c <=? 90)%N.

Definition lower_char (c : ascii) : ascii :=
  if is_upper c then ascii_of_N (N_of_ascii c + 32) else c.

(** [str.lower]. *)
Fixpoint lower (s : string) : string :=
  match s with
  | EmptyString => EmptyString
  | String c s' => String (lower_char c) (lower s')
  end.

(** Whitespace that [int] skips at both ends of its argument. *)
Definition is_space (c : ascii) : bool :=
  let n := N_of_ascii c in
  ((9 <=? n)%N && (n <=? 13)%N) || ((28 <=? n)%N && (n <=? 32)%N).

Definition digit_of (c : ascii) : option N :=
  let n := N_of_ascii c in
  if (48 <=? n)%N && (n <=? 57)%N then Some (n - 48)%N else None.

Fixpoint lstrip (s : string) : string :=
  match s with
  | String c s' => if is_space c then lstrip s' else s
  | EmptyString => EmptyString
  end.

Fixpoint string_rev_app (s acc : string) : string :=
  match s with
  | EmptyString => acc
  | String c s' => string_rev_app s' (String c acc)
  end.

Definition string_rev (s : string) : string := string_rev_app s EmptyString.

Definition strip (s : string) : string :=
  string_rev (lstrip (string_rev (lstrip s))).

(** No character of [s] is whitespace. *)
Definition no_space_in (s : string) : Prop :=
  Forall (λ c, is_space c = false) (list_ascii_of_string s).

(** The digits of an integer literal: at least one digit, and single
    underscores only between two digits. [seen] tells whether the previous
    character was a digit. *)
Fixpoint parse_digits (s : string) (acc : N) (seen : bool) : option N :=
  match s with
  | EmptyString => if seen then Some acc else None
  | String c s' =>
      match digit_of c with
      | Some d => parse_digits s' (10 * acc + d)%N true
      | None =>
          if Ascii.eqb c "_" && seen then parse_digits s' acc false
          else None
      end
  end.

(** Optional sign, then the digits. *)
Definition parse_signed (s : string) : option Z :=
  match s with
  | String c s' =>
      if Ascii.eqb c "-" then (λ n, - Z.of_N n)%Z <$> parse_digits s' 0 false
      else if Ascii.eqb c "+" then Z.of_N <$> parse_digits s' 0 false
      else Z.of_N <$> parse_digits s 0 false
  | EmptyString => None
  end.

Definition parse_int (s : string) : option Z := parse_signed (strip s).

(** [int(s)] for a [str] argument, base ten. *)
Definition int (s : string) : result Z :=
  match parse_int s with
  | Some z => Ok z
  | None =>
      Raise (Exn ValueError
               ("invalid literal for int() with base 10: '" ++ s ++ "'"))
  end.

Definition digit_char (d : N) : ascii := ascii_of_N (48 + d).

(** Decimal digits of [n], most significant first; [fuel] bounds the
    number of digits. *)
Fixpoint digits_fuel (fuel : nat) (n : N) (acc : string) : string :=
  match fuel with
  | O => acc
  | S f =>
      let acc' := String (digit_char (n mod 10)) acc in
      if (n <? 10)%N then acc' else digits_fuel f (n / 10) acc'
  end.

(** A number has no more decimal digits than binary ones. *)
Definition str_N (n : N) : string :=
  digits_fuel (S (N.to_nat (N.size n))) n EmptyString.

(** [str(z)] for an [int]. *)
Definition str_int (z : Z) : string :=
  if (z <? 0)%Z then String "-" (str_N (Z.abs_N z)) else str_N (Z.to_N z).

(** ** The process environment *)

Abbreviation environ := (gmap string string).

(** [os.getenv(name)] and [os.getenv(name, default)]. *)
Definition getenv (env : environ) (name : string) : option string :=
  env !! name.

Definition getenv_default (env : environ) (name default : string) : string :=
  match env !! name with
  | Some val => val
  | None => default
  end.

(** ** Environment helpers of the module *)

Definition _bool_env (env : environ) (name : string) (default : bool) : bool :=
  match getenv env name with
  | None => default
  | Some val => bool_decide (lower val ∈ ["1"; "true"; "yes"; "on"])
  end.

Definition _int_env (env : environ) (name : string) (default : Z) : result Z :=
  try_except (int (getenv_default env name (str_int default)))
    [TypeError; ValueError] (λ _, Ok default).

(** ** Paths *)

(** A pure POSIX path: whether it is anchored at the root, and its
    components. *)
Record path : Type := PurePath { is_absolute : bool; parts : list string }.

#[global] Instance path_eq_dec : EqDecision path.
Proof. solve_decision. Defined.

Fixpoint split_on (sep : ascii) (s : string) : list string :=
  match s with
  | EmptyString => [EmptyString]
  | String c s' =>
      if Ascii.eqb c sep then EmptyString :: split_on sep s'
      else match split_on sep s' with
           | x :: xs => String c x :: xs
           | [] => [String c EmptyString]
           end
  end.

(** [Path(s)]: empty and [.] components are dropped. *)
Definition Path (s : string) : path :=
  {| is_absolute := match s with String "/" _ => true | _ => false end;
     parts := filter (λ x, x ≠ "" ∧ x ≠ ".") (split_on "/" s) |}.

Fixpoint join (sep : string) (xs : list string) : string :=
  match xs with
  | [] => ""
  | [x] => x
  | x :: xs' => x ++ sep ++ join sep xs'
  end.

(** [str(p)]. *)
Definition path_str (p : path) : string :=
  if is_absolute p then "/" ++ join "/" (parts p)
  else match parts p with
       | [] => "."
       | xs => join "/" xs
       end.

Definition joinpath (p q : path) : path :=
  if is_absolute q then q
  else {| is_absolute := is_absolute p; parts := parts p ++ parts q |}.

(** A component as [Path] keeps it: not empty, not [.], and free of
    slashes. *)
Definition clean_component (x : string) : Prop :=
  x ≠ "" ∧ x ≠ "." ∧ "/"%char ∉ list_ascii_of_string x.


(** [p.parent]. *)
Definition parent (p : path) : path :=
  {| is_absolute := is_absolute p; parts := removelast (parts p) |}.

(** [p / s]. *)
Definition truediv (p : path) (s : string) : path := joinpath p (Path s).

Declare Scope path_scope.
Delimit Scope path_scope with path.
Bind Scope path_scope with path.
Infix "/" := truediv : path_scope.

(** ** Classes and their attributes *)

Inductive classmethod : Type := Ensure_dirs | Ensure_production_safety.

Inductive value : Type :=
  | VBool (b : bool)
  | VInt (z : Z)
  | VStr (s : string)
  | VPath (p : path)
  | VFrozenset (xs : gset string)
  | VClassmethod (f : classmethod).

#[global] Instance classmethod_eq_dec : EqDecision classmethod.
Proof. solve_decision. Defined.

#[global] Instance value_eq_dec : EqDecision value.
Proof. solve_decision. Defined.

#[global] Instance path_countable : Countable path.
Proof.
  refine (inj_countable' (λ p, (is_absolute p, parts p))
            (λ x, PurePath x.1 x.2) _).
  by intros [].
Defined.

#[global] Instance value_countable : Countable value.
Proof.
  refine (inj_countable'
            (λ v, match v with
                  | VBool b => inl (inl b)
                  | VInt z => inl (inr z)
                  | VStr s => inr (inl (inl s))
                  | VPath p => inr (inl (inr p))
                  | VFrozenset xs => inr (inr (inl xs))
                  | VClassmethod f =>
                      inr (inr (inr (bool_decide (f = Ensure_dirs))))
                  end)
            (λ x, match x with
                  | inl (inl b) => VBool b
                  | inl (inr z) => VInt z
                  | inr (inl (inl s)) => VStr s
                  | inr (inl (inr p)) => VPath p
                  | inr (inr (inl xs)) => VFrozenset xs
                  | inr (inr (inr b)) =>
                      VClassmethod
                        (if b : bool then Ensure_dirs
                         else Ensure_production_safety)
                  end) _).
  by intros [| | | | |[]].
Defined.

(** A class object: name, base class ([None] for [object]) and the
    dictionary of the names bound in its own body. *)
#[warnings="-register-all"]
Inductive class : Type :=
  | Class (name : string) (base : option class) (dict : gmap string value).

Definition class_name (c : class) : string :=
  match c with Class name _ _ => name end.

(** Attribute lookup along the bases. *)
Fixpoint class_lookup (c : class) (attr : string) : option value :=
  match c with
  | Class _ base dict =>
      match dict !! attr with
      | Some v => Some v
      | None =>
          match base with
          | Some b => class_lookup b attr
          | None => None
          end
      end
  end.

(** [cls.attr]. *)
Definition getattr (cls : class) (attr : string) : result value :=
  match class_lookup cls attr with
  | Some v => Ok v
  | None =>
      Raise (Exn AttributeError
               ("type object '" ++ class_name cls
                  ++ "' has no attribute '" ++ attr ++ "'"))
  end.

(** [str(v)] for an attribute value; the text of a bound method is
    abridged. *)
Definition value_str (v : value) : string :=
  match v with
  | VBool b => if b then "True" else "False"
  | VInt z => str_int z
  | VStr s => s
  | VPath p => path_str p
  | VFrozenset xs =>
      "frozenset({" ++ join ", " ((λ x, "'" ++ x ++ "'") <$> elements xs)
        ++ "})"
  | VClassmethod _ => "<bound method>"
  end.

(** [v / s] for an attribute value: only paths support it. *)
Definition value_truediv (v : value) (s : string) : result path :=
  match v with
  | VPath p => Ok (p / s)%path
  | _ => Raise (Exn TypeError "unsupported operand type(s) for /")
  end.

(** ** The operating system *)

Inductive errno : Type :=
  | EPERM | ENOENT | EIO | EACCES | EEXIST | ENOTDIR | ENOSPC | EROFS
  | ENAMETOOLONG.

Definition errno_code (e : errno) : Z :=
  match e with
  | EPERM => 1 | ENOENT => 2 | EIO => 5 | EACCES => 13 | EEXIST => 17
  | ENOTDIR => 20 | ENOSPC => 28 | EROFS => 30 | ENAMETOOLONG => 36
  end.

Definition strerror (e : errno) : string :=
  match e with
  | EPERM => "Operation not permitted"
  | ENOENT => "No such file or directory"
  | EIO => "Input/output error"
  | EACCES => "Permission denied"
  | EEXIST => "File exists"
  | ENOTDIR => "Not a directory"
  | ENOSPC => "No space left on device"
  | EROFS => "Read-only file system"
  | ENAMETOOLONG => "File name too long"
  end.

(** The subclass of [OSError] that the interpreter raises for an errno. *)
Definition errno_class (e : errno) : exn_class :=
  match e with
  | EPERM | EACCES => PermissionError
  | ENOENT => FileNotFoundError
  | EEXIST => FileExistsError
  | ENOTDIR => NotADirectoryError
  | EIO | ENOSPC | EROFS | ENAMETOOLONG => OSError
  end.

Definition os_error (e : errno) (p : path) : exn :=
  Exn (errno_class e)
      ("[Errno " ++ str_int (errno_code e) ++ "] " ++ strerror e
         ++ ": '" ++ path_str p ++ "'").

(** What the module needs from the file system: [p.mkdir(parents, exist_ok)]
    either succeeds or fails with an errno, and changes the disk. *)
Class FileSystem : Type := {
  fs_state : Type;
  path_mkdir : path → bool → bool → fs_state → option errno * fs_state
}.

(** ** Logging *)

Inductive log_level : Type := DEBUG | INFO | WARNING | ERROR | CRITICAL.

Record log_record : Type := LogRecord { levelname : log_level; message : string }.

(** [fmt % args] for a format made of [%s] directives. *)
Fixpoint percent_format (fmt : string) (args : list string) : string :=
  match fmt with
  | String "%" (String "s" rest) =>
      match args with
      | a :: args' => a ++ percent_format rest args'
      | [] => "%s" ++ percent_format rest []
      end
  | String c rest => String c (percent_format rest args)
  | EmptyString => EmptyString
  end.

(** ** Stateful code *)

Section Runtime.
Context `{FileSystem}.

(** What a call can read and change: the process environment, the disk
    and the records handed to the logger. *)
Record state : Type := State {
  os_environ : environ;
  disk : fs_state;
  log : list log_record
}.

Definition M (A : Type) : Type := state → result A * state.

#[global] Instance M_ret : MRet M := λ A a s, (Ok a, s).
#[global] Instance M_bind : MBind M := λ A B f m s,
  match m s with
  | (Ok a, s') => f a s'
  | (Raise e, s') => (Raise e, s')
  end.

Definition raise {A} (e : exn) : M A := λ s, (Raise e, s).

Definition lift {A} (r : result A) : M A := λ s, (r, s).

(** [try: body except (classes) as exc: handler exc]. *)
Definition try_except_M {A} (body : M A) (classes : list exn_class)
    (handler : exn → M A) : M A := λ s,
  match body s with
  | (Ok a, s') => (Ok a, s')
  | (Raise e, s') =>
      if existsb (issubclass (exn_type e)) classes then handler e s'
      else (Raise e, s')
  end.

(** [for x in xs: body x]. *)
Fixpoint for_each {A} (xs : list A) (body : A → M unit) : M unit :=
  match xs with
  | [] => mret ()
  | x :: xs' => body x ;; for_each xs' body
  end.

Definition os_getenv (name : string) : M (option string) := λ s,
  (Ok (getenv (os_environ s) name), s).

Definition append_log (r : log_record) (s : state) : state :=
  {| os_environ := os_environ s; disk := disk s; log := log s ++ [r] |}.

(** [logger.log(lvl, fmt, *args)]. *)
Definition logger_log (lvl : log_level) (fmt : string) (args : list string)
    : M unit := λ s,
  (Ok (), append_log (LogRecord lvl (percent_format fmt args)) s).

Definition logger_debug := logger_log DEBUG.
Definition logger_error := logger_log ERROR.

(** [p.mkdir(parents=..., exist_ok=...)] on an attribute value; only a
    path has the method. *)
Definition mkdir (p : value) (parents exist_ok : bool) : M unit := λ s,
  match p with
  | VPath q =>
      match path_mkdir q parents exist_ok (disk s) with
      | (err, d) =>
          (match err with
           | None => Ok ()
           | Some e => Raise (os_error e q)
           end,
           {| os_environ := os_environ s; disk := d; log := log s |})
      end
  | _ => (Raise (Exn AttributeError "object has no attribute 'mkdir'"), s)
  end.
End Runtime.

(** ** The module body *)

(** [class BaseConfig], evaluated with the environment [env] of the
    importing process. *)
Definition class_BaseConfig (env : environ) (PROJECT_ROOT : path)
    : result class :=
  let ALLOWED_EXTENSIONS : gset string := {["csv"]} in
  let BASE_DIR := PROJECT_ROOT in
  let DATA_DIR := (BASE_DIR / "data")%path in
  let MODEL_DIR := (BASE_DIR / "ml" / "models")%path in
  let MODEL_PATH :=
    Path (getenv_default env "MODEL_PATH"
            (path_str (MODEL_DIR / "insurance_model.joblib")%path)) in
  let UPLOAD_FOLDER := (DATA_DIR / "uploads")%path in
  let DEBUG := _bool_env env "FLASK_DEBUG" false in
  MAX_CONTENT_LENGTH ← _int_env env "MAX_CONTENT_LENGTH" (10 * 1024 * 1024);
  let SECRET_KEY := getenv_default env "SECRET_KEY" "dev-key-change-in-prod" in
  let CURRENCY := getenv_default env "CURRENCY" "USD" in
  mret (Class "BaseConfig" None (list_to_map [
    ("ALLOWED_EXTENSIONS", VFrozenset ALLOWED_EXTENSIONS);
    ("BASE_DIR", VPath BASE_DIR);
    ("DATA_DIR", VPath DATA_DIR);
    ("MODEL_DIR", VPath MODEL_DIR);
    ("MODEL_PATH", VPath MODEL_PATH);
    ("UPLOAD_FOLDER", VPath UPLOAD_FOLDER);
    ("DEBUG", VBool DEBUG);
    ("MAX_CONTENT_LENGTH", VInt MAX_CONTENT_LENGTH);
    ("SECRET_KEY", VStr SECRET_KEY);
    ("SESSION_COOKIE_SECURE", VBool true);
    ("REMEMBER_COOKIE_SECURE", VBool true);
    ("SQLALCHEMY_TRACK_MODIFICATIONS", VBool false);
    ("CURRENCY", VStr CURRENCY);
    ("ensure_dirs", VClassmethod Ensure_dirs)])).

(** [class DevelopmentConfig(BaseConfig)]. *)
Definition class_DevelopmentConfig (BaseConfig : class) : result class :=
  base_dir ← getattr BaseConfig "BASE_DIR";
  db ← value_truediv base_dir "db_dev.sqlite3";
  mret (Class "DevelopmentConfig" (Some BaseConfig) (list_to_map [
    ("DEBUG", VBool true);
    ("SESSION_COOKIE_SECURE", VBool false);
    ("REMEMBER_COOKIE_SECURE", VBool false);
    ("SQLALCHEMY_DATABASE_URI", VStr ("sqlite:///" ++ path_str db))])).

(** [class ProductionConfig(BaseConfig)]. *)
Definition class_ProductionConfig (BaseConfig : class) : result class :=
  base_dir ← getattr BaseConfig "BASE_DIR";
  db ← value_truediv base_dir "db_prod.sqlite3";
  mret (Class "ProductionConfig" (Some BaseConfig) (list_to_map [
    ("DEBUG", VBool false);
    ("SESSION_COOKIE_SECURE", VBool true);
    ("REMEMBER_COOKIE_SECURE", VBool true);
    ("SQLALCHEMY_DATABASE_URI", VStr ("sqlite:///" ++ path_str db));
    ("ensure_production_safety", VClassmethod Ensure_production_safety)])).

(** The names the module binds. *)
Record globals : Type := Globals {
  PROJECT_ROOT : path;
  BaseConfig : class;
  DevelopmentConfig : class;
  ProductionConfig : class;
  config_by_name : gmap string class;
  Config : class
}.

(** Importing the module: [env] is the environment at that moment and
    [file] the resolved location of [config.py]. *)
Definition import_module (env : environ) (file : path) : result globals :=
  let root := parent (parent file) in
  base ← class_BaseConfig env root;
  dev ← class_DevelopmentConfig base;
  prod ← class_ProductionConfig base;
  mret {| PROJECT_ROOT := root;
          BaseConfig := base;
          DevelopmentConfig := dev;
          ProductionConfig := prod;
          config_by_name :=
            <["production" := prod]>
              (<["development" := dev]> (<["default" := dev]> ∅));
          Config := base |}.

(** [d[key]]. *)
Definition dict_getitem {A} (d : gmap string A) (key : string) : result A :=
  match d !! key with
  | Some v => Ok v
  | None => Raise (Exn KeyError ("'" ++ key ++ "'"))
  end.

(** [d.get(key, default)]. *)
Definition dict_get {A} (d : gmap string A) (key : string) (default : A) : A :=
  match d !! key with
  | Some v => v
  | None => default
  end.

(** Truth value of an optional string: [None] and [""] are false. *)
Definition truthy (o : option string) : bool :=
  match o with
  | Some (String _ _) => true
  | _ => false
  end.

(** [o or default] where [default] is a string. *)
Definition or_str (o : option string) (default : string) : string :=
  match o with
  | Some (String c s) => String c s
  | _ => default
  end.

(** The record that [ensure_production_safety] hands to [logger.error]. *)
Definition insecure_secret_record : log_record :=
  LogRecord ERROR
    "SECRET_KEY is using the development default in production. Set SECRET_KEY in environment.".

(** What the proofs about the resolver use of an imported module [g]. *)
Record loaded (env : environ) (g : globals) : Prop := {
  ld_registry :
    config_by_name g =
      <["production" := ProductionConfig g]>
        (<["development" := DevelopmentConfig g]>
           (<["default" := DevelopmentConfig g]> ∅));
  ld_dirs : ∀ cls,
    cls = DevelopmentConfig g ∨ cls = ProductionConfig g →
    is_Some (class_lookup cls "MODEL_DIR")
    ∧ is_Some (class_lookup cls "DATA_DIR")
    ∧ is_Some (class_lookup cls "UPLOAD_FOLDER")
    ∧ class_lookup cls "ensure_dirs" = Some (VClassmethod Ensure_dirs);
  ld_secret :
    class_lookup (ProductionConfig g) "SECRET_KEY" =
      Some (VStr (getenv_default env "SECRET_KEY" "dev-key-change-in-prod"));
  ld_safety :
    class_lookup (ProductionConfig g) "ensure_production_safety" =
      Some (VClassmethod Ensure_production_safety);
  ld_dev_safety :
    class_lookup (DevelopmentConfig g) "ensure_production_safety" = None;
  ld_prod_cookies :
    class_lookup (ProductionConfig g) "SESSION_COOKIE_SECURE"
      = Some (VBool true)
    ∧ class_lookup (ProductionConfig g) "REMEMBER_COOKIE_SECURE"
      = Some (VBool true);
  ld_dev_cookies :
    class_lookup (DevelopmentConfig g) "SESSION_COOKIE_SECURE"
      = Some (VBool false)
    ∧ class_lookup (DevelopmentConfig g) "REMEMBER_COOKIE_SECURE"
      = Some (VBool false);
  ld_dev_debug :
    class_lookup (DevelopmentConfig g) "DEBUG" = Some (VBool true);
  ld_names :
    class_name (DevelopmentConfig g) = "DevelopmentConfig"
    ∧ class_name (ProductionConfig g) = "ProductionConfig"
}.

Section Resolver.
Context `{FileSystem}.

(** [BaseConfig.ensure_dirs]. The loop runs over a set, whose iteration
    order Python leaves open; [elements] fixes one. *)
Definition ensure_dirs (cls : class) : M unit :=
  model_dir ← lift (getattr cls "MODEL_DIR");
  data_dir ← lift (getattr cls "DATA_DIR");
  upload_folder ← lift (getattr cls "UPLOAD_FOLDER");
  for_each (elements ({[model_dir; data_dir; upload_folder]} : gset value))
    (λ p,
       try_except_M (mkdir p true true) [Exception]
         (λ exc,
            logger_debug "Failed to create directory %s: %s"
              [value_str p; exn_str exc])).

(** [ProductionConfig.ensure_production_safety]. *)
Definition ensure_production_safety (cls : class) : M unit :=
  secret ← lift (getattr cls "SECRET_KEY");
  if decide (secret = VStr "dev-key-change-in-prod") then
    logger_error
      "SECRET_KEY is using the development default in production. Set SECRET_KEY in environment."
      []
  else mret ().

(** [cls.attr()] for a class method. *)
Definition call_classmethod (cls : class) (attr : string) : M unit :=
  f ← lift (getattr cls attr);
  match f with
  | VClassmethod Ensure_dirs => ensure_dirs cls
  | VClassmethod Ensure_production_safety => ensure_production_safety cls
  | _ => raise (Exn TypeError "object is not callable")
  end.

Definition get_config (g : globals) (name : option string) : M class :=
  chosen ← (if truthy name then mret name else os_getenv "FLASK_ENV");
  let key := lower (or_str chosen "default") in
  fallback ← lift (dict_getitem (config_by_name g) "default");
  let cfg := dict_get (config_by_name g) key fallback in
  call_classmethod cfg "ensure_dirs";;
  (if decide (key = "production") then
     try_except_M (call_classmethod cfg "ensure_production_safety")
       [AttributeError] (λ _, mret ())
   else mret ());;
  mret cfg.

End Resolver.

(** ** An in-memory file system *)

Inductive node : Type := Dir | File.

#[global] Instance node_eq_dec : EqDecision node.
Proof. solve_decision. Defined.

(** The entries below the root and the working directory (which always
    exist), and whether the file system is mounted read-only. *)
Record memfs : Type := MemFs { nodes : gmap path node; read_only : bool }.

Definition is_dir (p : path) (fs : memfs) : bool :=
  match parts p with
  | [] => true
  | _ => bool_decide (nodes fs !! p = Some Dir)
  end.

Definition exists_ (p : path) (fs : memfs) : bool :=
  match parts p with
  | [] => true
  | _ => bool_decide (is_Some (nodes fs !! p))
  end.

(** [os.mkdir(p)]: the entry must be new and its parent a directory. *)
Definition os_mkdir (p : path) (fs : memfs) : option errno * memfs :=
  if exists_ p fs then (Some EEXIST, fs)
  else if negb (exists_ (parent p) fs) then (Some ENOENT, fs)
  else if negb (is_dir (parent p) fs) then (Some ENOTDIR, fs)
  else if read_only fs then (Some EROFS, fs)
  else (None, {| nodes := <[p := Dir]> (nodes fs); read_only := read_only fs |}).

(** [Path.mkdir]: a missing parent is created first when [parents] is set,
    and any other failure is forgiven when [exist_ok] is set and the path
    is a directory. [fuel] bounds the climb to the parents. *)
Fixpoint mem_mkdir (fuel : nat) (p : path) (parents exist_ok : bool)
    (fs : memfs) : option errno * memfs :=
  match os_mkdir p fs with
  | (None, fs') => (None, fs')
  | (Some ENOENT, _) =>
      if negb parents || bool_decide (parent p = p) then (Some ENOENT, fs)
      else match fuel with
           | O => (Some ENOENT, fs)
           | S f =>
               match mem_mkdir f (parent p) true true fs with
               | (None, fs') => mem_mkdir f p false exist_ok fs'
               | (Some e, fs') => (Some e, fs')
               end
           end
  | (Some e, _) =>
      if negb exist_ok || negb (is_dir p fs) then (Some e, fs) else (None, fs)
  end.

(** No regular file stands at [p] or at any of its ancestors. *)
Definition way_clear (p : path) (fs : memfs) : Prop :=
  ∀ k, nodes fs !! PurePath (is_absolute p) (take k (parts p)) ≠ Some File.

(** [fs'] is [fs] with, at most, more directories. *)
Definition grows (fs fs' : memfs) : Prop :=
  read_only fs' = read_only fs
  ∧ (∀ q, is_dir q fs = true → is_dir q fs' = true)
  ∧ (∀ q, nodes fs' !! q = Some File → nodes fs !! q = Some File).

Definition MemFS : FileSystem :=
  {| fs_state := memfs;
     path_mkdir p parents exist_ok fs :=
       mem_mkdir (S (length (parts p))) p parents exist_ok fs |}.

(** A sample installation: the module lives in [/srv/app/core], the disk is
    empty and writable, and nothing has been logged. *)
Definition sample_file : path := Path "/srv/app/core/config.py".

Definition sample_state (env : environ) : @state MemFS :=
  @State MemFS env (MemFs ∅ false) [].

(** The same installation on a disk mounted read-only. *)
Definition read_only_state (env : environ) : @state MemFS :=
  @State MemFS env (MemFs ∅ true) [].

(** * Properties *)

(** ** Exceptions *)

Lemma os_error_is_Exception e p :
  issubclass (exn_type (os_error e p)) Exception = true.
Proof. by destruct e. Qed.

(** ** Strings *)

Lemma lower_char_idemp c : lower_char (lower_char c) = lower_char c.
Proof. by destruct c as [[] [] [] [] [] [] [] []]. Qed.

Lemma lower_idemp s : lower (lower s) = lower s.
Proof.
  induction s as [|c s IH]; [done|].
  cbn [lower]. by rewrite lower_char_idemp, IH.
Qed.

Lemma digit_char_spec d :
  (d < 10)%N →
  digit_of (digit_char d) = Some d
  ∧ is_space (digit_char d) = false
  ∧ Ascii.eqb (digit_char d) "-" = false
  ∧ Ascii.eqb (digit_char d) "+" = false.
Proof.
  intros Hd.
  assert (d = 0 ∨ d = 1 ∨ d = 2 ∨ d = 3 ∨ d = 4 ∨ d = 5 ∨ d = 6 ∨ d = 7
          ∨ d = 8 ∨ d = 9)%N as Hcases by lia.
  repeat (destruct Hcases as [-> | Hcases]; [done|]). by subst.
Qed.

Lemma mod10_lt n : (n mod 10 < 10)%N.
Proof. by apply N.mod_lt. Qed.

Lemma digits_fuel_S f n acc :
  digits_fuel (S f) n acc =
    if (n <? 10)%N then String (digit_char (n mod 10)) acc
    else digits_fuel f (n / 10) (String (digit_char (n mod 10)) acc).
Proof. reflexivity. Qed.

(** Reading back the digits written for [n] shifts the accumulator and adds
    [n]. *)
Lemma parse_digits_fuel f : ∀ n rest a b,
  (n < 2 ^ N.of_nat f)%N →
  ∃ k, parse_digits (digits_fuel (S f) n rest) a b
       = parse_digits rest (a * 10 ^ k + n)%N true.
Proof.
  induction f as [|f IH]; intros n rest a b Hn; rewrite digits_fuel_S;
    destruct (N.ltb_spec n 10) as [Hlt | Hge].
  1, 3: exists 1%N; cbn [parse_digits];
        destruct (digit_char_spec (n mod 10) (mod10_lt n)) as (-> & _);
        rewrite N.mod_small, N.pow_1_r by done; f_equal; lia.
  - change (N.of_nat 0) with 0%N in Hn. rewrite N.pow_0_r in Hn. lia.
  - assert (n / 10 < 2 ^ N.of_nat f)%N as Hdiv.
    { apply N.Div0.div_lt_upper_bound.
      rewrite Nat2N.inj_succ, N.pow_succ_r' in Hn; lia. }
    destruct (IH (n / 10)%N (String (digit_char (n mod 10)) rest) a b Hdiv)
      as [k Hk].
    exists (N.succ k). rewrite Hk. cbn [parse_digits].
    destruct (digit_char_spec (n mod 10) (mod10_lt n)) as (-> & _).
    f_equal. rewrite N.pow_succ_r'.
    pose proof (N.div_mod' n 10). lia.
Qed.

Lemma size_bound n : (n < 2 ^ N.of_nat (N.to_nat (N.size n)))%N.
Proof. rewrite N2Nat.id. apply N.size_gt. Qed.

Lemma parse_digits_str_N n : parse_digits (str_N n) 0 false = Some n.
Proof.
  destruct (parse_digits_fuel _ n EmptyString 0%N false (size_bound n))
    as [k Hk].
  unfold str_N. rewrite Hk. cbn [parse_digits]. f_equal; lia.
Qed.

(** The first character written is a digit. *)
Lemma digits_fuel_head f : ∀ n rest,
  ∃ d r, (d < 10)%N ∧ digits_fuel (S f) n rest = String (digit_char d) r.
Proof.
  induction f as [|f IH]; intros n rest; rewrite digits_fuel_S.
  - exists (n mod 10)%N, rest. split; [apply mod10_lt|]. by destruct (n <? 10)%N.
  - destruct (n <? 10)%N.
    + exists (n mod 10)%N, rest. split; [apply mod10_lt|done].
    + apply IH.
Qed.

Lemma digits_fuel_no_space f : ∀ n rest,
  no_space_in rest → no_space_in (digits_fuel f n rest).
Proof.
  induction f as [|f IH]; intros n rest Hrest; [done|].
  rewrite digits_fuel_S.
  assert (no_space_in (String (digit_char (n mod 10)) rest)) as Hacc.
  { constructor; [|done]. apply (digit_char_spec _ (mod10_lt n)). }
  destruct (n <? 10)%N; [done|]. by apply IH.
Qed.

Lemma string_rev_app_no_space s : ∀ acc,
  no_space_in s → no_space_in acc → no_space_in (string_rev_app s acc).
Proof.
  induction s as [|c s IH]; intros acc Hs Hacc; cbn; [done|].
  inversion_clear Hs. apply IH; [done|]. by constructor.
Qed.

Lemma string_rev_app_twice s : ∀ a b,
  string_rev_app (string_rev_app s a) b = string_rev_app a (s ++ b).
Proof.
  induction s as [|c s IH]; intros a b; cbn; [done|]. by rewrite IH.
Qed.

Lemma string_app_empty_r (s : string) : s ++ "" = s.
Proof.
  induction s as [|c s IH]; [done|].
  change (String c s ++ "") with (String c (s ++ "")). by rewrite IH.
Qed.

Lemma lstrip_no_space s : no_space_in s → lstrip s = s.
Proof.
  destruct s as [|c s]; [done|]. intros Hs. inversion_clear Hs as [|? ? Hc _].
  cbn. by rewrite Hc.
Qed.

Lemma strip_no_space s : no_space_in s → strip s = s.
Proof.
  intros Hs. unfold strip, string_rev.
  rewrite (lstrip_no_space s Hs), lstrip_no_space.
  - rewrite string_rev_app_twice. cbn. apply string_app_empty_r.
  - apply string_rev_app_no_space; [done|constructor].
Qed.

Lemma str_N_no_space n : no_space_in (str_N n).
Proof. apply digits_fuel_no_space. constructor. Qed.

Lemma parse_signed_str_N n : parse_signed (str_N n) = Some (Z.of_N n).
Proof.
  pose proof (parse_digits_str_N n) as Hparse. unfold str_N in *.
  destruct (digits_fuel_head (N.to_nat (N.size n)) n EmptyString)
    as (d & r & Hd & Heq).
  rewrite Heq in Hparse |- *. unfold parse_signed.
  destruct (digit_char_spec d Hd) as (_ & _ & -> & ->).
  by rewrite Hparse.
Qed.

(** [int(str(z)) == z]. *)
Lemma parse_int_str_int z : parse_int (str_int z) = Some z.
Proof.
  unfold parse_int, str_int. destruct (Z.ltb_spec z 0) as [Hneg | Hpos].
  - rewrite strip_no_space.
    + cbn [parse_signed]. replace (Ascii.eqb "-" "-") with true by done.
      rewrite parse_digits_str_N. cbn. f_equal. lia.
    + constructor; [done|]. apply str_N_no_space.
  - rewrite strip_no_space; [|apply str_N_no_space].
    rewrite parse_signed_str_N. f_equal. lia.
Qed.

(** ** [_bool_env] *)

(** C1, as stated, does not hold: a variable that is set to a string
    outside the accepted set does not yield the supplied default. With
    [FLASK_DEBUG=no] and default [True], [_bool_env] returns [False]. *)
Lemma bool_env_other_value_not_default :
  (({["FLASK_DEBUG" := "no"]} : environ) !! "FLASK_DEBUG") = Some "no"
  ∧ (lower "no" ∉ ["1"; "true"; "yes"; "on"])
  ∧ _bool_env {["FLASK_DEBUG" := "no"]} "FLASK_DEBUG" true ≠ true.
Proof.
  split; [reflexivity|]. split.
  - intros Hin. exact (bool_decide_pack _ Hin).
  - discriminate.
Qed.

(** C1 (amended): an unset variable yields the supplied default; a
    variable whose value lowercases to one of "1", "true", "yes", "on"
    yields true; a variable set to any other string yields false, whatever
    the default. *)
Theorem bool_env_spec (env : environ) name default :
  (env !! name = None → _bool_env env name default = default)
  ∧ (∀ val, env !! name = Some val →
       lower val ∈ ["1"; "true"; "yes"; "on"] →
       _bool_env env name default = true)
  ∧ (∀ val, env !! name = Some val →
       lower val ∉ ["1"; "true"; "yes"; "on"] →
       _bool_env env name default = false).
Proof.
  unfold _bool_env, getenv. repeat split.
  - by intros ->.
  - intros val -> Hin. by apply bool_decide_eq_true.
  - intros val -> Hnotin. by apply bool_decide_eq_false.
Qed.

Lemma bool_env_spec_witness :
  _bool_env ∅ "FLASK_DEBUG" true = true
  ∧ _bool_env {["FLASK_DEBUG" := "YeS"]} "FLASK_DEBUG" false = true
  ∧ _bool_env {["FLASK_DEBUG" := "off"]} "FLASK_DEBUG" true = false.
Proof.
  split; [|split].
  - destruct (bool_env_spec ∅ "FLASK_DEBUG" true) as (Hunset & _).
    apply Hunset. reflexivity.
  - destruct (bool_env_spec {["FLASK_DEBUG" := "YeS"]} "FLASK_DEBUG" false)
      as (_ & Hin & _).
    apply (Hin "YeS"); [reflexivity|].
    apply (bool_decide_unpack _). reflexivity.
  - destruct (bool_env_spec {["FLASK_DEBUG" := "off"]} "FLASK_DEBUG" true)
      as (_ & _ & Hother).
    apply (Hother "off"); [reflexivity|].
    intros Hin. exact (bool_decide_pack _ Hin).
Defined.

(** ** [_int_env] *)

Lemma int_env_value (env : environ) name default :
  _int_env env name default =
    match env !! name with
    | Some val =>
        match parse_int val with
        | Some z => Ok z
        | None => Ok default
        end
    | None => Ok default
    end.
Proof.
  unfold _int_env, getenv_default, int.
  destruct (env !! name) as [val|].
  - by destruct (parse_int val).
  - by rewrite parse_int_str_int.
Qed.

Lemma int_env_never_raises (env : environ) name default :
  ∃ z, _int_env env name default = Ok z.
Proof.
  rewrite int_env_value. destruct (env !! name) as [val|]; [|by eexists].
  destruct (parse_int val); by eexists.
Qed.



(** ** Importing the module *)

(** The import never fails, whatever the environment. *)
Lemma import_module_ok env file :
  ∃ g, import_module env file = Ok g ∧ loaded env g.
Proof.
  destruct (int_env_never_raises env "MAX_CONTENT_LENGTH" (10 * 1024 * 1024))
    as [mcl Hmcl].
  unfold import_module, class_BaseConfig. rewrite Hmcl.
  cbn [mbind result_bind mret result_ret].
  eexists. split; [reflexivity|].
  split;
    cbn [config_by_name DevelopmentConfig ProductionConfig class_lookup
         class_name];
    try (intros cls [-> | ->]);
    cbn [class_lookup]; unfold list_to_map; cbn [foldr uncurry fst snd];
    by simplify_map_eq.
Qed.

Lemma import_module_loaded env file g :
  import_module env file = Ok g → loaded env g.
Proof.
  intros Hg. destruct (import_module_ok env file) as (g' & Hg' & Hloaded).
  congruence.
Qed.

Lemma classes_differ env g :
  loaded env g → ProductionConfig g ≠ DevelopmentConfig g.
Proof.
  intros Hg Heq. destruct (ld_names _ _ Hg) as [Hdev Hprod].
  rewrite Heq, Hdev in Hprod. discriminate.
Qed.

Lemma registry_lookup env g key :
  loaded env g →
  config_by_name g !! key =
    if decide (key = "production") then Some (ProductionConfig g)
    else if decide (key = "development") then Some (DevelopmentConfig g)
    else if decide (key = "default") then Some (DevelopmentConfig g)
    else None.
Proof.
  intros Hg. rewrite (ld_registry _ _ Hg).
  repeat case_decide; by simplify_map_eq.
Qed.

(** ** The resolver *)

Section ResolverProofs.
Context `{FileSystem}.

Lemma bind_ok {A B} (m : M A) (f : A → M B) s a s' :
  m s = (Ok a, s') → (m ≫= f) s = f a s'.
Proof. intros Hm. unfold mbind, M_bind. by rewrite Hm. Qed.

Lemma lift_getattr cls attr v s :
  class_lookup cls attr = Some v → lift (getattr cls attr) s = (Ok v, s).
Proof. intros Hv. unfold lift, getattr. by rewrite Hv. Qed.

(** One round of the loop of [ensure_dirs]: whatever [mkdir] does, the
    round ends normally and leaves the environment alone. *)
Lemma mkdir_guarded_ok (p : value) s :
  ∃ s',
    try_except_M (mkdir p true true) [Exception]
      (λ exc,
         logger_debug "Failed to create directory %s: %s"
           [value_str p; exn_str exc]) s
    = (Ok (), s')
    ∧ os_environ s' = os_environ s.
Proof.
  unfold try_except_M, mkdir.
  destruct p as [b|z|str|q|xs|f]; try (by eexists).
  destruct (path_mkdir q true true (disk s)) as [[e|] d].
  - cbn [existsb]. rewrite os_error_is_Exception. by eexists.
  - by eexists.
Qed.

Lemma for_each_mkdir_ok (xs : list value) : ∀ s,
  ∃ s',
    for_each xs
      (λ p,
         try_except_M (mkdir p true true) [Exception]
           (λ exc,
              logger_debug "Failed to create directory %s: %s"
                [value_str p; exn_str exc])) s
    = (Ok (), s')
    ∧ os_environ s' = os_environ s.
Proof.
  induction xs as [|x xs IH]; intros s; cbn [for_each].
  - by exists s.
  - destruct (mkdir_guarded_ok x s) as (s1 & Hx & Henv1).
    rewrite (bind_ok _ _ _ _ _ Hx).
    destruct (IH s1) as (s2 & Hxs & Henv2).
    exists s2. split; [done|congruence].
Qed.

(** [ensure_dirs] never raises on a class that has the three directory
    attributes, and it does not touch the environment. *)
Lemma ensure_dirs_ok cls s :
  is_Some (class_lookup cls "MODEL_DIR") →
  is_Some (class_lookup cls "DATA_DIR") →
  is_Some (class_lookup cls "UPLOAD_FOLDER") →
  ∃ s', ensure_dirs cls s = (Ok (), s') ∧ os_environ s' = os_environ s.
Proof.
  intros [m Hm] [d Hd] [u Hu]. unfold ensure_dirs.
  rewrite (bind_ok _ _ _ _ _ (lift_getattr _ _ _ s Hm)).
  rewrite (bind_ok _ _ _ _ _ (lift_getattr _ _ _ s Hd)).
  rewrite (bind_ok _ _ _ _ _ (lift_getattr _ _ _ s Hu)).
  apply for_each_mkdir_ok.
Qed.

Lemma call_ensure_dirs cls s :
  class_lookup cls "ensure_dirs" = Some (VClassmethod Ensure_dirs) →
  call_classmethod cls "ensure_dirs" s = ensure_dirs cls s.
Proof.
  intros Hf. unfold call_classmethod.
  by rewrite (bind_ok _ _ _ _ _ (lift_getattr _ _ _ s Hf)).
Qed.

Lemma ensure_production_safety_run cls v s :
  class_lookup cls "SECRET_KEY" = Some v →
  ensure_production_safety cls s =
    (Ok (),
     if decide (v = VStr "dev-key-change-in-prod")
     then append_log insecure_secret_record s else s).
Proof.
  intros Hv. unfold ensure_production_safety.
  rewrite (bind_ok _ _ _ _ _ (lift_getattr _ _ _ s Hv)).
  by case_decide.
Qed.

(** A class without the method: the call raises [AttributeError], which
    the handler in [get_config] swallows. *)
Lemma missing_safety_check_swallowed cls s :
  class_lookup cls "ensure_production_safety" = None →
  try_except_M (call_classmethod cls "ensure_production_safety")
    [AttributeError] (λ _, mret ()) s = (Ok (), s).
Proof.
  intros Hnone.
  unfold try_except_M, call_classmethod, mbind, M_bind, lift, getattr.
  by rewrite Hnone.
Qed.

Lemma call_ensure_production_safety cls v s :
  class_lookup cls "ensure_production_safety"
    = Some (VClassmethod Ensure_production_safety) →
  class_lookup cls "SECRET_KEY" = Some v →
  try_except_M (call_classmethod cls "ensure_production_safety")
    [AttributeError] (λ _, mret ()) s =
    (Ok (),
     if decide (v = VStr "dev-key-change-in-prod")
     then append_log insecure_secret_record s else s).
Proof.
  intros Hf Hv. unfold try_except_M, call_classmethod.
  rewrite (bind_ok _ _ _ _ _ (lift_getattr _ _ _ s Hf)).
  by rewrite (ensure_production_safety_run _ _ _ Hv).
Qed.

(** What a call of [get_config] does, step by step: the key, the class
    found for it, the directories, and for the key "production" the safety
    check. *)
Lemma get_config_run env g name s :
  loaded env g →
  let key :=
    lower (or_str (if truthy name then name
                   else getenv (os_environ s) "FLASK_ENV") "default") in
  let cfg := dict_get (config_by_name g) key (DevelopmentConfig g) in
  ∃ s1,
    ensure_dirs cfg s = (Ok (), s1)
    ∧ os_environ s1 = os_environ s
    ∧ get_config g name s =
        (Ok cfg,
         if decide (key = "production") then
           if decide (getenv_default env "SECRET_KEY" "dev-key-change-in-prod"
                      = "dev-key-change-in-prod")
           then append_log insecure_secret_record s1 else s1
         else s1).
Proof.
  intros Hg key cfg.
  assert (cfg = DevelopmentConfig g ∨ cfg = ProductionConfig g) as Hcfg.
  { unfold cfg, dict_get. rewrite (registry_lookup _ _ key Hg).
    repeat case_decide; auto. }
  destruct (ld_dirs _ _ Hg cfg Hcfg) as (Hm & Hd & Hu & Hcall).
  destruct (ensure_dirs_ok cfg s Hm Hd Hu) as (s1 & Hdirs & Henv).
  exists s1. split; [done|]. split; [done|].
  unfold get_config.
  assert ((if truthy name then mret name else os_getenv "FLASK_ENV") s
          = (Ok (if truthy name then name
                 else getenv (os_environ s) "FLASK_ENV"), s)) as Hchosen
    by (by destruct (truthy name)).
  rewrite (bind_ok _ _ _ _ _ Hchosen). fold key.
  assert (lift (dict_getitem (config_by_name g) "default") s
          = (Ok (DevelopmentConfig g), s)) as Hfallback.
  { unfold lift, dict_getitem.
    by rewrite (registry_lookup _ _ "default" Hg). }
  rewrite (bind_ok _ _ _ _ _ Hfallback). fold cfg.
  assert (call_classmethod cfg "ensure_dirs" s = (Ok (), s1)) as Hstep
    by (by rewrite call_ensure_dirs).
  rewrite (bind_ok _ _ _ _ _ Hstep).
  destruct (decide (key = "production")) as [Hkey | Hkey].
  - assert (cfg = ProductionConfig g) as Hprod.
    { unfold cfg, dict_get. rewrite (registry_lookup _ _ key Hg).
      by rewrite decide_True. }
    erewrite bind_ok.
    2:{ rewrite Hprod.
        apply (call_ensure_production_safety _ _ _ (ld_safety _ _ Hg)
                 (ld_secret _ _ Hg)). }
    unfold mret, M_ret. f_equal.
    repeat case_decide; congruence.
  - done.
Qed.

(** The name matters only through the key computed from it. *)
Lemma get_config_same_key env g name1 name2 s :
  loaded env g →
  lower (or_str (if truthy name1 then name1
                 else getenv (os_environ s) "FLASK_ENV") "default")
  = lower (or_str (if truthy name2 then name2
                   else getenv (os_environ s) "FLASK_ENV") "default") →
  get_config g name1 s = get_config g name2 s.
Proof.
  intros Hg Hkey.
  destruct (get_config_run env g name1 s Hg) as (s1 & Hdirs1 & _ & ->).
  destruct (get_config_run env g name2 s Hg) as (s2 & Hdirs2 & _ & ->).
  rewrite Hkey in Hdirs1 |- *. rewrite Hdirs1 in Hdirs2.
  by injection Hdirs2 as ->.
Qed.

Lemma truthy_lower n : truthy (Some (lower n)) = truthy (Some n).
Proof. by destruct n. Qed.

(** C2 (amended): for every non-empty name that, lowercased, is not a key
    of the registry, [get_config] behaves exactly as for the name "default":
    it returns the same profile, the development one, and raises nothing. *)
Theorem unknown_name_falls_back env file g name s :
  import_module env file = Ok g →
  name ≠ "" →
  config_by_name g !! lower name = None →
  get_config g (Some name) s = get_config g (Some "default") s
  ∧ fst (get_config g (Some name) s) = Ok (DevelopmentConfig g).
Proof.
  intros Himp Hname Hunknown.
  pose proof (import_module_loaded _ _ _ Himp) as Hg.
  destruct (get_config_run env g (Some name) s Hg) as (s1 & Hdirs1 & _ & Hrun1).
  destruct (get_config_run env g (Some "default") s Hg)
    as (s2 & Hdirs2 & _ & Hrun2).
  assert (truthy (Some name) = true) as Htruthy by (by destruct name).
  rewrite Htruthy in Hdirs1, Hrun1.
  assert (or_str (Some name) "default" = name) as Hor by (by destruct name).
  rewrite Hor in Hdirs1, Hrun1.
  change (lower (or_str (if truthy (Some "default") then Some "default"
                         else getenv (os_environ s) "FLASK_ENV") "default"))
    with "default" in Hdirs2, Hrun2.
  assert (dict_get (config_by_name g) (lower name) (DevelopmentConfig g)
          = DevelopmentConfig g) as Hcfg1
    by (unfold dict_get; by rewrite Hunknown).
  assert (dict_get (config_by_name g) "default" (DevelopmentConfig g)
          = DevelopmentConfig g) as Hcfg2.
  { unfold dict_get. by rewrite (registry_lookup _ _ "default" Hg). }
  rewrite Hcfg1 in Hdirs1, Hrun1. rewrite Hcfg2 in Hdirs2, Hrun2.
  assert (s2 = s1) as -> by congruence.
  assert (lower name ≠ "production") as Hne.
  { intros Heq. rewrite Heq, (registry_lookup _ _ "production" Hg) in Hunknown.
    discriminate. }
  rewrite Hrun1, Hrun2. rewrite (decide_False (P := lower name = _)) by done.
  done.
Qed.

(** C3: without a name, [get_config] takes the name from [FLASK_ENV], and
    from the literal "default" when that variable is unset too; the key is
    lowercased before the registry is consulted, so a name and its
    lowercase form resolve alike, and the class returned is the registry
    entry of the lowercased name (the default entry when there is none). *)
Theorem absent_name_uses_FLASK_ENV env file g s :
  import_module env file = Ok g →
  (∀ v, os_environ s !! "FLASK_ENV" = Some v →
     get_config g None s = get_config g (Some v) s)
  ∧ (os_environ s !! "FLASK_ENV" = None →
     get_config g None s = get_config g (Some "default") s)
  ∧ (∀ n, get_config g (Some n) s = get_config g (Some (lower n)) s)
  ∧ (∀ n, n ≠ "" →
       fst (get_config g (Some n) s) =
         Ok (dict_get (config_by_name g) (lower n) (DevelopmentConfig g))).
Proof.
  intros Himp. pose proof (import_module_loaded _ _ _ Himp) as Hg.
  split; [|split; [|split]].
  - intros v Hv. apply (get_config_same_key env); [done|].
    unfold getenv. rewrite Hv. cbn [truthy]. by destruct v.
  - intros Hnone. apply (get_config_same_key env); [done|].
    unfold getenv. by rewrite Hnone.
  - intros n. apply (get_config_same_key env); [done|].
    rewrite truthy_lower. destruct n as [|c n]; [done|].
    cbn [truthy or_str]. apply eq_sym, (lower_idemp (String c n)).
  - intros n Hn.
    destruct (get_config_run env g (Some n) s Hg) as (s1 & _ & _ & ->).
    by destruct n.
Qed.

(** C5: when the profile resolved is the production one and its
    [SECRET_KEY] is the literal "dev-key-change-in-prod", the call creates
    the directories, hands one record to [logger.error] and returns the
    production profile; nothing is raised. *)
Theorem insecure_production_secret_only_logs env file g name s :
  import_module env file = Ok g →
  fst (get_config g name s) = Ok (ProductionConfig g) →
  getattr (ProductionConfig g) "SECRET_KEY"
    = Ok (VStr "dev-key-change-in-prod") →
  ∃ s1,
    ensure_dirs (ProductionConfig g) s = (Ok (), s1)
    ∧ get_config g name s =
        (Ok (ProductionConfig g), append_log insecure_secret_record s1).
Proof.
  intros Himp Hres Hsecret.
  pose proof (import_module_loaded _ _ _ Himp) as Hg.
  destruct (get_config_run env g name s Hg) as (s1 & Hdirs & _ & Hrun).
  rewrite Hrun in Hres. cbn [fst] in Hres. injection Hres as Hcfg.
  rewrite Hcfg in Hdirs, Hrun.
  unfold getattr in Hsecret. rewrite (ld_secret _ _ Hg) in Hsecret.
  injection Hsecret as Hsecret.
  exists s1. split; [done|]. rewrite Hrun. f_equal.
  rewrite (decide_True (P := getenv_default _ _ _ = _)) by done.
  case_decide as Hkey; [done|]. exfalso.
  unfold dict_get in Hcfg. rewrite (registry_lookup _ _ _ Hg) in Hcfg.
  rewrite decide_False in Hcfg by done.
  apply (classes_differ _ _ Hg). by repeat case_decide.
Qed.

(** C6: the profile that "production" resolves to has both secure-cookie
    flags true, the one that "development" resolves to has both false. *)
Theorem cookie_flags_by_profile env file :
  ∃ g, import_module env file = Ok g ∧
    ∀ s, ∃ prod dev,
      fst (get_config g (Some "production") s) = Ok prod
      ∧ getattr prod "SESSION_COOKIE_SECURE" = Ok (VBool true)
      ∧ getattr prod "REMEMBER_COOKIE_SECURE" = Ok (VBool true)
      ∧ fst (get_config g (Some "development") s) = Ok dev
      ∧ getattr dev "SESSION_COOKIE_SECURE" = Ok (VBool false)
      ∧ getattr dev "REMEMBER_COOKIE_SECURE" = Ok (VBool false).
Proof.
  destruct (import_module_ok env file) as (g & Himp & Hg).
  exists g. split; [done|]. intros s.
  exists (ProductionConfig g), (DevelopmentConfig g).
  destruct (get_config_run env g (Some "production") s Hg)
    as (s1 & _ & _ & ->).
  destruct (get_config_run env g (Some "development") s Hg)
    as (s2 & _ & _ & ->).
  destruct (ld_prod_cookies _ _ Hg) as [Hps Hpr].
  destruct (ld_dev_cookies _ _ Hg) as [Hds Hdr].
  unfold getattr. rewrite Hps, Hpr, Hds, Hdr. cbn [fst].
  unfold dict_get.
  change (lower (or_str (if truthy (Some "production") then Some "production"
                         else getenv (os_environ s) "FLASK_ENV") "default"))
    with "production".
  change (lower (or_str (if truthy (Some "development") then Some "development"
                         else getenv (os_environ s) "FLASK_ENV") "default"))
    with "development".
  rewrite !(registry_lookup _ _ _ Hg). done.
Qed.

(** C7: with [FLASK_ENV] unset, [get_config(None)] returns the development
    profile, and that profile's [DEBUG] is true. *)
Theorem default_profile_is_development env file g s :
  import_module env file = Ok g →
  os_environ s !! "FLASK_ENV" = None →
  fst (get_config g None s) = Ok (DevelopmentConfig g)
  ∧ getattr (DevelopmentConfig g) "DEBUG" = Ok (VBool true).
Proof.
  intros Himp Hunset. pose proof (import_module_loaded _ _ _ Himp) as Hg.
  destruct (get_config_run env g None s Hg) as (s1 & _ & _ & ->).
  unfold getattr, getenv. rewrite (ld_dev_debug _ _ Hg), Hunset.
  cbn [fst truthy or_str]. unfold dict_get.
  change (lower "default") with "default".
  by rewrite (registry_lookup _ _ _ Hg).
Qed.



(** C10: for every name, every environment at import and every state of
    the process at the call, [get_config] ends normally and returns one of
    the two registered profiles: [ensure_dirs] ends normally on either
    profile whatever [mkdir] does, and the guarded safety check ends
    normally even on the profile that lacks the method, where the call
    raises [AttributeError]. *)
Theorem get_config_never_raises env file :
  ∃ g, import_module env file = Ok g ∧
    ∀ name s,
      (∃ cfg s',
         get_config g name s = (Ok cfg, s')
         ∧ (cfg = DevelopmentConfig g ∨ cfg = ProductionConfig g))
      ∧ (∃ s', ensure_dirs (DevelopmentConfig g) s = (Ok (), s'))
      ∧ (∃ s', ensure_dirs (ProductionConfig g) s = (Ok (), s'))
      ∧ try_except_M
          (call_classmethod (DevelopmentConfig g) "ensure_production_safety")
          [AttributeError] (λ _, mret ()) s = (Ok (), s).
Proof.
  destruct (import_module_ok env file) as (g & Himp & Hg).
  exists g. split; [done|]. intros name s.
  split; [|split; [|split]].
  - destruct (get_config_run env g name s Hg) as (s1 & _ & _ & Hrun).
    eexists _, _. split; [exact Hrun|].
    unfold dict_get. rewrite (registry_lookup _ _ _ Hg).
    repeat case_decide; auto.
  - destruct (ld_dirs _ _ Hg (DevelopmentConfig g)) as (Hm & Hd & Hu & _);
      [by left|].
    destruct (ensure_dirs_ok _ s Hm Hd Hu) as (s' & Hrun & _). by exists s'.
  - destruct (ld_dirs _ _ Hg (ProductionConfig g)) as (Hm & Hd & Hu & _);
      [by right|].
    destruct (ensure_dirs_ok _ s Hm Hd Hu) as (s' & Hrun & _). by exists s'.
  - apply missing_safety_check_swallowed, (ld_dev_safety _ _ Hg).
Qed.

End ResolverProofs.

(** ** The resolver on the sample installation *)

(** C2, as stated, does not hold for the empty name: it is not a key of the
    registry, yet with [FLASK_ENV=production] [get_config("")] returns
    the production profile while [get_config("default")] returns the
    development one. *)
Lemma empty_name_follows_FLASK_ENV :
  ∃ g,
    import_module ∅ sample_file = Ok g
    ∧ config_by_name g !! lower "" = None
    ∧ fst (get_config (H := MemFS) g (Some "")
             (sample_state {["FLASK_ENV" := "production"]}))
      = Ok (ProductionConfig g)
    ∧ fst (get_config (H := MemFS) g (Some "default")
             (sample_state {["FLASK_ENV" := "production"]}))
      = Ok (DevelopmentConfig g)
    ∧ ProductionConfig g ≠ DevelopmentConfig g.
Proof.
  eexists. split; [reflexivity|].
  split; [reflexivity|].
  split; [reflexivity|].
  split; [reflexivity|].
  intros Heq. apply (f_equal class_name) in Heq. discriminate Heq.
Qed.

Lemma unknown_name_falls_back_witness :
  ∃ g,
    import_module ∅ sample_file = Ok g
    ∧ get_config (H := MemFS) g (Some "Staging") (sample_state ∅)
      = get_config g (Some "default") (sample_state ∅)
    ∧ fst (get_config (H := MemFS) g (Some "Staging") (sample_state ∅))
      = Ok (DevelopmentConfig g).
Proof.
  eexists. split; [reflexivity|].
  apply (unknown_name_falls_back (H := MemFS) ∅ sample_file).
  - reflexivity.
  - discriminate.
  - reflexivity.
Defined.

Lemma absent_name_uses_FLASK_ENV_witness :
  ∃ g,
    import_module ∅ sample_file = Ok g
    ∧ get_config (H := MemFS) g None
        (sample_state {["FLASK_ENV" := "Production"]})
      = get_config g (Some "Production")
          (sample_state {["FLASK_ENV" := "Production"]})
    ∧ get_config (H := MemFS) g None (sample_state ∅)
      = get_config g (Some "default") (sample_state ∅)
    ∧ fst (get_config (H := MemFS) g (Some "Production") (sample_state ∅))
      = Ok (dict_get (config_by_name g) "production" (DevelopmentConfig g)).
Proof.
  eexists. split; [reflexivity|].
  split; [|split].
  - edestruct (absent_name_uses_FLASK_ENV (H := MemFS) ∅ sample_file)
      as (Hset & _); [reflexivity|].
    apply Hset. reflexivity.
  - edestruct (absent_name_uses_FLASK_ENV (H := MemFS) ∅ sample_file)
      as (_ & Hunset & _); [reflexivity|].
    apply Hunset. reflexivity.
  - edestruct (absent_name_uses_FLASK_ENV (H := MemFS) ∅ sample_file)
      as (_ & _ & _ & Hkey); [reflexivity|].
    apply (Hkey "Production"). discriminate.
Defined.

Lemma insecure_production_secret_only_logs_witness :
  ∃ g,
    import_module ∅ sample_file = Ok g
    ∧ ∃ s1,
        ensure_dirs (H := MemFS) (ProductionConfig g) (sample_state ∅)
        = (Ok (), s1)
        ∧ get_config g (Some "production") (sample_state ∅)
          = (Ok (ProductionConfig g), append_log insecure_secret_record s1).
Proof.
  eexists. split; [reflexivity|].
  apply (insecure_production_secret_only_logs (H := MemFS) ∅ sample_file).
  - reflexivity.
  - reflexivity.
  - reflexivity.
Defined.

Lemma default_profile_is_development_witness :
  ∃ g,
    import_module ∅ sample_file = Ok g
    ∧ fst (get_config (H := MemFS) g None (sample_state ∅))
      = Ok (DevelopmentConfig g)
    ∧ getattr (DevelopmentConfig g) "DEBUG" = Ok (VBool true).
Proof.
  eexists. split; [reflexivity|].
  apply (default_profile_is_development (H := MemFS) ∅ sample_file).
  - reflexivity.
  - reflexivity.
Defined.

(** ** The in-memory file system *)

(** Create-if-absent: on a directory that already exists, [mkdir] with
    [exist_ok] set succeeds and changes nothing. *)
Lemma mem_mkdir_existing_dir fuel p parents fs :
  is_dir p fs = true → mem_mkdir fuel p parents true fs = (None, fs).
Proof.
  intros Hdir.
  assert (exists_ p fs = true) as Hex.
  { unfold is_dir, exists_ in *. destruct (parts p); [done|].
    apply bool_decide_eq_true in Hdir. apply bool_decide_eq_true. eauto. }
  destruct fuel; cbn [mem_mkdir]; unfold os_mkdir; by rewrite Hex, Hdir.
Qed.

(** On the sample installation the first call creates the directories; the
    second call finds them and leaves disk and log as they were. *)
Example second_call_changes_nothing :
  ∃ g,
    import_module ∅ sample_file = Ok g
    ∧ fst (get_config (H := MemFS) g None (sample_state ∅))
      = Ok (DevelopmentConfig g)
    ∧ get_config (H := MemFS) g None
        (snd (get_config (H := MemFS) g None (sample_state ∅)))
      = get_config (H := MemFS) g None (sample_state ∅).
Proof.
  eexists. split; [reflexivity|]. split; reflexivity.
Qed.

(** On a read-only disk every [mkdir] fails; each failure is logged at
    debug level and the call still returns the profile. *)
Example read_only_disk_is_logged :
  ∃ g,
    import_module ∅ sample_file = Ok g
    ∧ fst (get_config (H := MemFS) g None (read_only_state ∅))
      = Ok (DevelopmentConfig g)
    ∧ log (snd (get_config (H := MemFS) g None (read_only_state ∅)))
      = [LogRecord DEBUG
           "Failed to create directory /srv/app/ml/models: [Errno 30] Read-only file system: '/srv/app/ml/models'";
         LogRecord DEBUG
           "Failed to create directory /srv/app/data/uploads: [Errno 30] Read-only file system: '/srv/app/data/uploads'";
         LogRecord DEBUG
           "Failed to create directory /srv/app/data: [Errno 30] Read-only file system: '/srv/app/data'"].
Proof.
  eexists. split; [reflexivity|]. split; reflexivity.
Qed.

(** * Further properties of the module *)

(** ** The classes after import *)

(** The module as the import leaves it, spelled out. *)
Lemma import_module_inv env file g :
  import_module env file = Ok g →
  ∃ mcl,
    _int_env env "MAX_CONTENT_LENGTH" (10 * 1024 * 1024) = Ok mcl
    ∧ let root := parent (parent file) in
      let base :=
        Class "BaseConfig" None (list_to_map [
          ("ALLOWED_EXTENSIONS", VFrozenset {["csv"]});
          ("BASE_DIR", VPath root);
          ("DATA_DIR", VPath (root / "data"));
          ("MODEL_DIR", VPath (root / "ml" / "models"));
          ("MODEL_PATH",
           VPath (Path (getenv_default env "MODEL_PATH"
                          (path_str (root / "ml" / "models"
                                     / "insurance_model.joblib")))));
          ("UPLOAD_FOLDER", VPath (root / "data" / "uploads"));
          ("DEBUG", VBool (_bool_env env "FLASK_DEBUG" false));
          ("MAX_CONTENT_LENGTH", VInt mcl);
          ("SECRET_KEY",
           VStr (getenv_default env "SECRET_KEY" "dev-key-change-in-prod"));
          ("SESSION_COOKIE_SECURE", VBool true);
          ("REMEMBER_COOKIE_SECURE", VBool true);
          ("SQLALCHEMY_TRACK_MODIFICATIONS", VBool false);
          ("CURRENCY", VStr (getenv_default env "CURRENCY" "USD"));
          ("ensure_dirs", VClassmethod Ensure_dirs)]) in
      let dev :=
        Class "DevelopmentConfig" (Some base) (list_to_map [
          ("DEBUG", VBool true);
          ("SESSION_COOKIE_SECURE", VBool false);
          ("REMEMBER_COOKIE_SECURE", VBool false);
          ("SQLALCHEMY_DATABASE_URI",
           VStr ("sqlite:///" ++ path_str (root / "db_dev.sqlite3")))]) in
      let prod :=
        Class "ProductionConfig" (Some base) (list_to_map [
          ("DEBUG", VBool false);
          ("SESSION_COOKIE_SECURE", VBool true);
          ("REMEMBER_COOKIE_SECURE", VBool true);
          ("SQLALCHEMY_DATABASE_URI",
           VStr ("sqlite:///" ++ path_str (root / "db_prod.sqlite3")));
          ("ensure_production_safety",
           VClassmethod Ensure_production_safety)]) in
      g = {| PROJECT_ROOT := root;
             BaseConfig := base;
             DevelopmentConfig := dev;
             ProductionConfig := prod;
             config_by_name :=
               <["production" := prod]>
                 (<["development" := dev]> (<["default" := dev]> ∅));
             Config := base |}.
Proof.
  intros Himp.
  destruct (int_env_never_raises env "MAX_CONTENT_LENGTH" (10 * 1024 * 1024))
    as [mcl Hmcl].
  exists mcl. split; [done|].
  unfold import_module, class_BaseConfig in Himp. rewrite Hmcl in Himp.
  cbn [mbind result_bind mret result_ret] in Himp.
  cbv zeta. enough (Ok g = Ok _) as Hok by (injection Hok as ->; reflexivity).
  rewrite <- Himp. reflexivity.
Qed.

Ltac open_module Himp :=
  let mcl := fresh "mcl" in
  let Hmcl := fresh "Hmcl" in
  let Hg := fresh "Hg" in
  destruct (import_module_inv _ _ _ Himp) as (mcl & Hmcl & Hg);
  cbv zeta in Hg; subst;
  cbn [PROJECT_ROOT BaseConfig DevelopmentConfig ProductionConfig
       config_by_name Config] in *.

Ltac map_lookup :=
  repeat (rewrite (lookup_insert_eq (M := gmap string))
          || (rewrite (lookup_insert_ne (M := gmap string)) by done)
          || rewrite (lookup_empty (M := gmap string))).

Ltac class_attr :=
  unfold getattr; cbn [class_lookup]; unfold list_to_map;
  cbn [foldr uncurry fst snd]; map_lookup.


Ltac each_class Hcfg :=
  repeat (apply elem_of_cons in Hcfg; destruct Hcfg as [-> | Hcfg]);
  [..| by apply elem_of_nil in Hcfg].



(** X2: [FLASK_DEBUG] reaches only [BaseConfig] and its alias [Config];
    the two profiles fix [DEBUG] themselves, true for development and
    false for production, whatever the environment says. *)
Theorem debug_only_follows_env_on_base env file :
  ∃ g,
    import_module env file = Ok g
    ∧ Config g = BaseConfig g
    ∧ getattr (Config g) "DEBUG" = Ok (VBool (_bool_env env "FLASK_DEBUG" false))
    ∧ getattr (DevelopmentConfig g) "DEBUG" = Ok (VBool true)
    ∧ getattr (ProductionConfig g) "DEBUG" = Ok (VBool false).
Proof.
  destruct (import_module_ok env file) as (g & Himp & _).
  exists g. split; [done|]. open_module Himp.
  split; [done|]. split; [|split]; by class_attr.
Qed.



(** ** Paths and their text *)

Lemma string_app_assoc (a b c : string) : (a ++ b) ++ c = a ++ (b ++ c).
Proof.
  induction a as [|x a IH]; [done|].
  change ((String x a ++ b) ++ c) with (String x ((a ++ b) ++ c)).
  change (String x a ++ b ++ c) with (String x (a ++ b ++ c)).
  by rewrite IH.
Qed.

Lemma string_app_inv_head (a b c : string) : a ++ b = a ++ c → b = c.
Proof.
  induction a as [|x a IH]; [done|].
  change (String x a ++ b) with (String x (a ++ b)).
  change (String x a ++ c) with (String x (a ++ c)).
  intros Heq. injection Heq as Heq. by apply IH.
Qed.

Lemma slash_eqb_false c : c ≠ "/"%char → Ascii.eqb c "/" = false.
Proof. intros Hc. by apply Ascii.eqb_neq. Qed.

Lemma split_on_clean x :
  "/"%char ∉ list_ascii_of_string x → split_on "/" x = [x].
Proof.
  induction x as [|c x IH]; [done|]. cbn [list_ascii_of_string split_on].
  intros Hnot. apply not_elem_of_cons in Hnot as [Hc Hx].
  by rewrite (slash_eqb_false c), (IH Hx) by done.
Qed.


Lemma join_cons sep y l :
  l ≠ [] → join sep (y :: l) = y ++ sep ++ join sep l.
Proof. by destruct l. Qed.



Lemma not_slash_head c r :
  c ≠ "/"%char →
  match String c r with String "/" _ => true | _ => false end = false.
Proof.
  intros Hc. destruct c as [[] [] [] [] [] [] [] []]; try reflexivity.
  by destruct Hc.
Qed.


(** The text of a path that ends in component [x] ends in [x]; what
    precedes depends on the rest of the path only. *)
Lemma path_str_snoc a l :
  ∃ pre, ∀ x, path_str (PurePath a (l ++ [x])) = pre ++ x.
Proof.
  assert (∃ pre, ∀ x, join "/" (l ++ [x]) = pre ++ x) as [pre Hpre].
  { induction l as [|y l [pre IH]]; [by exists ""|].
    exists (y ++ "/" ++ pre). intros x.
    rewrite <- app_comm_cons.
    rewrite join_cons by (by destruct l).
    by rewrite IH, !string_app_assoc. }
  destruct a.
  - exists ("/" ++ pre). intros x. unfold path_str. cbn [is_absolute parts].
    by rewrite Hpre, string_app_assoc.
  - exists pre. intros x. unfold path_str. cbn [is_absolute parts].
    rewrite <- Hpre. by destruct l.
Qed.

Ltac clean_literal :=
  split; [discriminate|split; [discriminate|]];
  let Hin := fresh "Hin" in intros Hin; exact (bool_decide_pack _ Hin).

(** [p / x] appends the component [x]. *)
Lemma truediv_clean p x :
  clean_component x →
  (p / x)%path = PurePath (is_absolute p) (parts p ++ [x]).
Proof.
  intros (Hne & Hdot & Hslash). unfold truediv, joinpath, Path.
  cbn [is_absolute parts]. rewrite split_on_clean by done.
  rewrite filter_cons_True by done. rewrite filter_nil.
  destruct x as [|c x]; [done|].
  assert (c ≠ "/"%char) as Hc by (intros ->; apply Hslash; cbn; by left).
  by rewrite (not_slash_head c x Hc).
Qed.

(** ** The directories *)

(** X4: on every class the directory settings lie inside the project
    root, which is two levels above the module's file: [DATA_DIR] is
    [root/data], [MODEL_DIR] is [root/ml/models] and [UPLOAD_FOLDER] is
    [uploads] inside [DATA_DIR]. They do not depend on the environment, and
    the three are distinct, so [ensure_dirs] has three directories to
    create. *)
Theorem directories_under_project_root env file g cfg :
  import_module env file = Ok g →
  cfg ∈ [BaseConfig g; DevelopmentConfig g; ProductionConfig g] →
  PROJECT_ROOT g = parent (parent file)
  ∧ getattr cfg "BASE_DIR" = Ok (VPath (PROJECT_ROOT g))
  ∧ ∃ data models uploads,
      getattr cfg "DATA_DIR" = Ok (VPath data)
      ∧ getattr cfg "MODEL_DIR" = Ok (VPath models)
      ∧ getattr cfg "UPLOAD_FOLDER" = Ok (VPath uploads)
      ∧ data = PurePath (is_absolute file)
                 (parts (PROJECT_ROOT g) ++ ["data"])
      ∧ models = PurePath (is_absolute file)
                   (parts (PROJECT_ROOT g) ++ ["ml"; "models"])
      ∧ uploads = PurePath (is_absolute file) (parts data ++ ["uploads"])
      ∧ size ({[VPath models; VPath data; VPath uploads]} : gset value) = 3.
Proof.
  intros Himp Hcfg. open_module Himp.
  set (root := parent (parent file)) in *.
  assert ((root / "data")%path
          = PurePath (is_absolute file) (parts root ++ ["data"])) as Hdata
    by (rewrite truediv_clean by clean_literal; done).
  assert ((root / "ml" / "models")%path
          = PurePath (is_absolute file) (parts root ++ ["ml"; "models"]))
    as Hmodels.
  { rewrite !truediv_clean by clean_literal. cbn [is_absolute parts].
    by rewrite <- app_assoc. }
  assert ((root / "data" / "uploads")%path
          = PurePath (is_absolute file)
              ((parts root ++ ["data"]) ++ ["uploads"])) as Huploads
    by (rewrite !truediv_clean by clean_literal; done).
  assert (size ({[VPath (root / "ml" / "models")%path;
                  VPath (root / "data")%path;
                  VPath (root / "data" / "uploads")%path]} : gset value)
          = 3) as Hsize.
  { rewrite Huploads, Hmodels, Hdata.
    assert (∀ a (l xs ys : list string),
              xs ≠ ys → VPath (PurePath a (l ++ xs)) ≠ VPath (PurePath a (l ++ ys)))
      as Hne.
    { intros a l xs ys Hxs Heq. injection Heq as Heq.
      by apply app_inv_head in Heq. }
    rewrite <- (app_assoc _ ["data"] ["uploads"]).
    rewrite size_union, size_union, !size_singleton; [done|..].
    - apply disjoint_singleton_l, not_elem_of_singleton, Hne. discriminate.
    - apply disjoint_union_l. split;
        apply disjoint_singleton_l, not_elem_of_singleton, Hne; discriminate. }
  split; [done|].
  each_class Hcfg; (split; [by class_attr|]);
    eexists _, _, _;
    (split; [by class_attr|]); (split; [by class_attr|]);
    (split; [by class_attr|]);
    rewrite <- ?Huploads, <- ?Hmodels, <- ?Hdata; done.
Qed.

Lemma directories_under_project_root_witness :
  ∃ g,
    import_module ∅ sample_file = Ok g
    ∧ getattr (DevelopmentConfig g) "BASE_DIR"
      = Ok (VPath (PurePath true ["srv"; "app"])).
Proof.
  eexists. split; [reflexivity|].
  edestruct (directories_under_project_root ∅ sample_file)
    as (_ & Hbase & _); [reflexivity| |exact Hbase].
  apply elem_of_cons; right. apply elem_of_cons; by left.
Defined.



(** ** The database locations *)

(** X6: the two profiles name different SQLite files, [db_dev.sqlite3] and
    [db_prod.sqlite3] in the project root, whatever the root is; the base
    class, and so the alias [Config], has no [SQLALCHEMY_DATABASE_URI] at
    all, and asking for it raises [AttributeError]. *)
Theorem database_uri_per_profile env file :
  ∃ g dev_uri prod_uri e,
    import_module env file = Ok g
    ∧ getattr (DevelopmentConfig g) "SQLALCHEMY_DATABASE_URI"
      = Ok (VStr dev_uri)
    ∧ getattr (ProductionConfig g) "SQLALCHEMY_DATABASE_URI"
      = Ok (VStr prod_uri)
    ∧ dev_uri = "sqlite:///" ++ path_str (PROJECT_ROOT g / "db_dev.sqlite3")
    ∧ prod_uri = "sqlite:///" ++ path_str (PROJECT_ROOT g / "db_prod.sqlite3")
    ∧ dev_uri ≠ prod_uri
    ∧ getattr (Config g) "SQLALCHEMY_DATABASE_URI" = Raise e
    ∧ exn_type e = AttributeError.
Proof.
  destruct (import_module_ok env file) as (g & Himp & _).
  pose proof Himp as Hinv. open_module Hinv.
  set (root := parent (parent file)) in *.
  eexists _, _, _, _. split; [exact Himp|].
  cbn [PROJECT_ROOT BaseConfig DevelopmentConfig ProductionConfig Config].
  split; [by class_attr|]. split; [by class_attr|].
  split; [done|]. split; [done|]. split.
  - rewrite !truediv_clean by clean_literal.
    destruct (path_str_snoc (is_absolute root) (parts root)) as [pre Hpre].
    rewrite !Hpre. intros Heq.
    apply string_app_inv_head, string_app_inv_head in Heq. discriminate.
  - split; [class_attr; reflexivity|reflexivity].
Qed.

(** ** What a call does to the process *)

Local Open Scope list_scope.

Section ResolverEffects.
Context `{FileSystem}.

(** One round of the loop adds at most one record, at debug level. *)
Lemma mkdir_guarded_log (p : value) s :
  ∃ s' l,
    try_except_M (mkdir p true true) [Exception]
      (λ exc,
         logger_debug "Failed to create directory %s: %s"
           [value_str p; exn_str exc]) s
    = (Ok (), s')
    ∧ os_environ s' = os_environ s
    ∧ log s' = log s ++ l
    ∧ (length l ≤ 1)%nat
    ∧ Forall (λ r, levelname r = DEBUG) l.
Proof.
  unfold try_except_M, mkdir.
  assert (∀ fmt args s0,
            ∃ s' l, logger_debug fmt args s0 = (Ok (), s')
                    ∧ os_environ s' = os_environ s0
                    ∧ log s' = log s0 ++ l ∧ (length l ≤ 1)%nat
                    ∧ Forall (λ r, levelname r = DEBUG) l) as Hlog.
  { intros fmt args s0. eexists _, [_]. split; [reflexivity|].
    repeat split; [done|]. by apply Forall_singleton. }
  destruct p as [b|z|str|q|xs|f]; try apply Hlog.
  destruct (path_mkdir q true true (disk s)) as [[e|] d].
  - cbn [existsb]. rewrite os_error_is_Exception.
    destruct (Hlog "Failed to create directory %s: %s"
                [value_str (VPath q); exn_str (os_error e q)]
                {| os_environ := os_environ s; disk := d; log := log s |})
      as (s' & l & Hrun & Henv & Hl & Hlen & Hdebug).
    exists s', l. by rewrite Hrun.
  - eexists _, []. split; [reflexivity|]. cbn [os_environ log length].
    rewrite app_nil_r. repeat split; [lia|constructor].
Qed.

Lemma for_each_mkdir_log (xs : list value) : ∀ s,
  ∃ s' l,
    for_each xs
      (λ p,
         try_except_M (mkdir p true true) [Exception]
           (λ exc,
              logger_debug "Failed to create directory %s: %s"
                [value_str p; exn_str exc])) s
    = (Ok (), s')
    ∧ os_environ s' = os_environ s
    ∧ log s' = log s ++ l
    ∧ (length l ≤ length xs)%nat
    ∧ Forall (λ r, levelname r = DEBUG) l.
Proof.
  induction xs as [|x xs IH]; intros s; cbn [for_each].
  - exists s, []. rewrite app_nil_r. repeat split; [done|constructor].
  - destruct (mkdir_guarded_log x s)
      as (s1 & l1 & Hx & Henv1 & Hl1 & Hlen1 & Hdebug1).
    rewrite (bind_ok _ _ _ _ _ Hx).
    destruct (IH s1) as (s2 & l2 & Hxs & Henv2 & Hl2 & Hlen2 & Hdebug2).
    exists s2, (l1 ++ l2). split; [done|]. split; [congruence|].
    split; [by rewrite Hl2, Hl1, app_assoc|].
    split; [rewrite length_app; cbn [length]; lia|by apply Forall_app].
Qed.

Lemma three_elements (a b c : value) :
  (length (elements ({[a; b; c]} : gset value)) ≤ 3)%nat.
Proof.
  change 3 with (length [a; b; c]). apply submseteq_length, NoDup_submseteq.
  - apply NoDup_elements.
  - intros x Hx. apply elem_of_elements in Hx.
    rewrite !elem_of_union, !elem_of_singleton in Hx.
    rewrite !elem_of_cons. tauto.
Qed.

(** What [ensure_dirs] leaves behind on a class with the three
    attributes. *)
Lemma ensure_dirs_log cls s :
  is_Some (class_lookup cls "MODEL_DIR") →
  is_Some (class_lookup cls "DATA_DIR") →
  is_Some (class_lookup cls "UPLOAD_FOLDER") →
  ∃ s' l,
    ensure_dirs cls s = (Ok (), s')
    ∧ os_environ s' = os_environ s
    ∧ log s' = log s ++ l
    ∧ (length l ≤ 3)%nat
    ∧ Forall (λ r, levelname r = DEBUG) l.
Proof.
  intros [m Hm] [d Hd] [u Hu]. unfold ensure_dirs.
  rewrite (bind_ok _ _ _ _ _ (lift_getattr _ _ _ s Hm)).
  rewrite (bind_ok _ _ _ _ _ (lift_getattr _ _ _ s Hd)).
  rewrite (bind_ok _ _ _ _ _ (lift_getattr _ _ _ s Hu)).
  destruct (for_each_mkdir_log (elements ({[m; d; u]} : gset value)) s)
    as (s' & l & Hrun & Henv & Hl & Hlen & Hdebug).
  exists s', l. repeat split; try done.
  pose proof (three_elements m d u). lia.
Qed.

(** The class a call returns, read off the key. *)
Lemma get_config_class env g name s :
  loaded env g →
  fst (get_config g name s) =
    Ok (if decide (lower (or_str (if truthy name then name
                                  else os_environ s !! "FLASK_ENV")
                            "default") = "production")
        then ProductionConfig g else DevelopmentConfig g).
Proof.
  intros Hg. destruct (get_config_run env g name s Hg) as (s1 & _ & _ & ->).
  cbn [fst]. unfold dict_get, getenv. rewrite (registry_lookup _ _ _ Hg).
  by repeat case_decide.
Qed.

(** X7: which profile a call returns is decided by one string, the
    lowercased name (or, without a name, [FLASK_ENV], or "default"): the
    production profile when it is "production", the development profile
    otherwise. A non-empty name decides alone: the environment, the disk and
    the log have no say. *)
Theorem profile_decided_by_key env file g name s :
  import_module env file = Ok g →
  fst (get_config g name s) =
    Ok (if decide (lower (or_str (if truthy name then name
                                  else os_environ s !! "FLASK_ENV")
                            "default") = "production")
        then ProductionConfig g else DevelopmentConfig g)
  ∧ (∀ n s', name = Some n → n ≠ "" →
       fst (get_config g name s') = fst (get_config g name s)).
Proof.
  intros Himp. pose proof (import_module_loaded _ _ _ Himp) as Hg.
  split; [by apply (get_config_class env)|].
  intros n s' -> Hn. rewrite !(get_config_class env) by done.
  by destruct n.
Qed.

(** X8: the safety check goes by the environment at import. When the
    production profile is resolved, the call adds the error record exactly
    when [SECRET_KEY] is unset or holds the development literal itself; any
    other value, the empty string included, passes without a word. *)
Theorem safety_check_follows_environment env file g name s :
  import_module env file = Ok g →
  fst (get_config g name s) = Ok (ProductionConfig g) →
  ∃ s1,
    ensure_dirs (ProductionConfig g) s = (Ok (), s1)
    ∧ snd (get_config g name s) =
        match env !! "SECRET_KEY" with
        | None => append_log insecure_secret_record s1
        | Some v =>
            if decide (v = "dev-key-change-in-prod")
            then append_log insecure_secret_record s1 else s1
        end.
Proof.
  intros Himp Hres. pose proof (import_module_loaded _ _ _ Himp) as Hg.
  rewrite (get_config_class env) in Hres by done.
  case_decide as Hkey;
    [|injection Hres as Hres; by destruct (classes_differ _ _ Hg)].
  destruct (get_config_run env g name s Hg) as (s1 & Hdirs & _ & ->).
  unfold getenv in *. rewrite Hkey in Hdirs |- *.
  assert (dict_get (config_by_name g) "production" (DevelopmentConfig g)
          = ProductionConfig g) as Hprod.
  { unfold dict_get. by rewrite (registry_lookup _ _ _ Hg). }
  rewrite Hprod in Hdirs. exists s1. split; [done|]. cbn [snd].
  rewrite decide_True by done. unfold getenv_default.
  destruct (env !! "SECRET_KEY"); [done|]. by rewrite decide_True.
Qed.

(** X9: a call never touches the environment and only appends to the log:
    at most three debug records, one per directory that could not be
    created, and after them at most the one error record of the safety
    check, which only a call that returns the production profile writes. *)
Theorem get_config_only_appends_to_log env file g name s :
  import_module env file = Ok g →
  ∃ l,
    os_environ (snd (get_config g name s)) = os_environ s
    ∧ log (snd (get_config g name s)) = log s ++ l
    ∧ (length l ≤ 4)%nat
    ∧ Forall (λ r, levelname r = DEBUG
                   ∨ (r = insecure_secret_record
                      ∧ fst (get_config g name s) = Ok (ProductionConfig g)))
        l.
Proof.
  intros Himp. pose proof (import_module_loaded _ _ _ Himp) as Hg.
  pose proof (get_config_class env g name s Hg) as Hclass.
  destruct (get_config_run env g name s Hg) as (s1 & Hdirs & _ & Hrun).
  unfold getenv in *.
  set (key := lower (or_str (if truthy name then name
                             else os_environ s !! "FLASK_ENV") "default"))
    in *.
  set (cfg := dict_get (config_by_name g) key (DevelopmentConfig g)) in *.
  assert (cfg = DevelopmentConfig g ∨ cfg = ProductionConfig g) as Hcfg.
  { unfold cfg, dict_get. rewrite (registry_lookup _ _ key Hg).
    repeat case_decide; auto. }
  destruct (ld_dirs _ _ Hg cfg Hcfg) as (Hm & Hd & Hu & _).
  destruct (ensure_dirs_log cfg s Hm Hd Hu)
    as (s1' & l & Hdirs' & Henv & Hl & Hlen & Hdebug).
  assert (s1' = s1) as -> by congruence.
  rewrite Hrun in Hclass |- *. cbn [fst snd] in *.
  assert (∀ P : Prop,
            Forall (λ r, levelname r = DEBUG ∨ (r = insecure_secret_record ∧ P))
              l) as Hl'.
  { intros P. eapply Forall_impl; [exact Hdebug|]. intros r Hr. by left. }
  destruct (decide (key = "production")) as [Hkey|Hkey]; [case_decide|].
  - exists (l ++ [insecure_secret_record]).
    cbn [append_log os_environ log].
    split; [done|]. split; [by rewrite Hl, app_assoc|].
    split; [rewrite length_app; cbn [length]; lia|].
    apply Forall_app. split; [done|]. apply Forall_singleton. by right.
  - exists l. split; [done|]. split; [done|]. split; [lia|done].
  - exists l. split; [done|]. split; [done|]. split; [lia|done].
Qed.

End ResolverEffects.

Lemma profile_decided_by_key_witness :
  ∃ g,
    import_module ∅ sample_file = Ok g
    ∧ fst (get_config (H := MemFS) g (Some "PRODUCTION") (sample_state ∅))
      = Ok (ProductionConfig g)
    ∧ fst (get_config (H := MemFS) g (Some "PRODUCTION")
             (read_only_state {["FLASK_ENV" := "development"]}))
      = fst (get_config (H := MemFS) g (Some "PRODUCTION") (sample_state ∅)).
Proof.
  eexists. split; [reflexivity|].
  edestruct (profile_decided_by_key (H := MemFS) ∅ sample_file)
    with (name := Some "PRODUCTION") (s := sample_state ∅)
    as [Hkey Hfree]; [reflexivity|].
  split; [exact Hkey|].
  apply (Hfree "PRODUCTION"); [reflexivity|discriminate].
Defined.

Lemma safety_check_follows_environment_witness :
  ∃ g,
    import_module {["SECRET_KEY" := ""]} sample_file = Ok g
    ∧ ∃ s1,
        ensure_dirs (H := MemFS) (ProductionConfig g) (sample_state ∅)
        = (Ok (), s1)
        ∧ snd (get_config g (Some "production") (sample_state ∅)) = s1.
Proof.
  eexists. split; [reflexivity|].
  edestruct (safety_check_follows_environment (H := MemFS)
               {["SECRET_KEY" := ""]} sample_file)
    with (name := Some "production") (s := sample_state ∅)
    as (s1 & Hdirs & Hstate); [reflexivity|reflexivity|].
  exists s1. split; [exact Hdirs|exact Hstate].
Defined.

Lemma get_config_only_appends_to_log_witness :
  ∃ g l,
    import_module ∅ sample_file = Ok g
    ∧ log (snd (get_config (H := MemFS) g None (read_only_state ∅)))
      = log (read_only_state ∅) ++ l
    ∧ (length l ≤ 4)%nat.
Proof.
  eexists.
  edestruct (get_config_only_appends_to_log (H := MemFS) ∅ sample_file)
    with (name := @None string) (s := read_only_state ∅)
    as (l & _ & Hlog & Hlen & _); [reflexivity|].
  exists l. split; [reflexivity|]. split; [exact Hlog|exact Hlen].
Defined.

(** ** Directories that are already there *)

Lemma getattr_Ok cls attr v :
  getattr cls attr = Ok v → class_lookup cls attr = Some v.
Proof. unfold getattr. destruct (class_lookup cls attr); congruence. Qed.

Lemma for_each_fixed {A} `{FileSystem} (xs : list A) (body : A → M unit) s :
  (∀ x, x ∈ xs → body x s = (Ok (), s)) → for_each xs body s = (Ok (), s).
Proof.
  induction xs as [|x xs IH]; intros Hbody; [done|]. cbn [for_each].
  rewrite (bind_ok _ _ _ _ _ (Hbody x ltac:(by left))).
  apply IH. intros y Hy. apply Hbody. by right.
Qed.

(** [ensure_dirs] is its loop over the set of the three attribute
    values. *)
Lemma ensure_dirs_loop `{FileSystem} cls s m d u :
  getattr cls "MODEL_DIR" = Ok m →
  getattr cls "DATA_DIR" = Ok d →
  getattr cls "UPLOAD_FOLDER" = Ok u →
  ensure_dirs cls s =
    for_each (elements ({[m; d; u]} : gset value))
      (λ p,
         try_except_M (mkdir p true true) [Exception]
           (λ exc,
              logger_debug "Failed to create directory %s: %s"
                [value_str p; exn_str exc])) s.
Proof.
  intros Hm Hd Hu. unfold ensure_dirs.
  rewrite (bind_ok _ _ _ _ _ (lift_getattr _ _ _ s (getattr_Ok _ _ _ Hm))).
  rewrite (bind_ok _ _ _ _ _ (lift_getattr _ _ _ s (getattr_Ok _ _ _ Hd))).
  by rewrite (bind_ok _ _ _ _ _ (lift_getattr _ _ _ s (getattr_Ok _ _ _ Hu))).
Qed.

Lemma elem_of_three (x a b c : value) :
  x ∈ elements ({[a; b; c]} : gset value) ↔ x = a ∨ x = b ∨ x = c.
Proof.
  rewrite elem_of_elements, !elem_of_union, !elem_of_singleton. tauto.
Qed.

(** One round of the loop on a directory that exists. *)
Lemma mkdir_guarded_existing p (s : @state MemFS) :
  is_dir p (disk s) = true →
  try_except_M (H := MemFS) (mkdir (VPath p) true true) [Exception]
    (λ exc,
       logger_debug "Failed to create directory %s: %s"
         [value_str (VPath p); exn_str exc]) s
  = (Ok (), s).
Proof.
  intros Hp. unfold try_except_M, mkdir. cbn [path_mkdir MemFS].
  rewrite mem_mkdir_existing_dir by done. by destruct s.
Qed.

(** X10: on the in-memory file system, [ensure_dirs] on a class whose three
    directories already exist changes nothing: no entry is added to the
    disk and nothing is logged. *)
Theorem ensure_dirs_existing_directories cls (s : @state MemFS) m d u :
  getattr cls "MODEL_DIR" = Ok (VPath m) →
  getattr cls "DATA_DIR" = Ok (VPath d) →
  getattr cls "UPLOAD_FOLDER" = Ok (VPath u) →
  is_dir m (disk s) = true →
  is_dir d (disk s) = true →
  is_dir u (disk s) = true →
  ensure_dirs (H := MemFS) cls s = (Ok (), s).
Proof.
  intros Hm Hd Hu Hdm Hdd Hdu.
  rewrite (ensure_dirs_loop (H := MemFS) cls s _ _ _ Hm Hd Hu).
  apply for_each_fixed. intros x Hx. apply elem_of_three in Hx.
  destruct Hx as [-> | [-> | ->]]; by apply mkdir_guarded_existing.
Qed.

Lemma ensure_dirs_existing_directories_witness :
  ∃ g,
    import_module ∅ sample_file = Ok g
    ∧ ensure_dirs (H := MemFS) (DevelopmentConfig g)
        (snd (get_config (H := MemFS) g None (sample_state ∅)))
      = (Ok (), snd (get_config (H := MemFS) g None (sample_state ∅))).
Proof.
  eexists. split; [reflexivity|].
  eapply ensure_dirs_existing_directories; reflexivity.
Defined.

(** ** Directories that are missing *)

Lemma mem_mkdir_eq fuel p parents exist_ok fs :
  mem_mkdir fuel p parents exist_ok fs =
    match os_mkdir p fs with
    | (None, fs') => (None, fs')
    | (Some ENOENT, _) =>
        if negb parents || bool_decide (parent p = p) then (Some ENOENT, fs)
        else match fuel with
             | O => (Some ENOENT, fs)
             | S f =>
                 match mem_mkdir f (parent p) true true fs with
                 | (None, fs') => mem_mkdir f p false exist_ok fs'
                 | (Some e, fs') => (Some e, fs')
                 end
             end
    | (Some e, _) =>
        if negb exist_ok || negb (is_dir p fs) then (Some e, fs)
        else (None, fs)
    end.
Proof. by destruct fuel. Qed.

Lemma grows_refl fs : grows fs fs.
Proof. by repeat split. Qed.

Lemma grows_trans fs1 fs2 fs3 : grows fs1 fs2 → grows fs2 fs3 → grows fs1 fs3.
Proof.
  intros (Hro1 & Hdir1 & Hfile1) (Hro2 & Hdir2 & Hfile2).
  split; [congruence|]. split; eauto.
Qed.

Lemma way_clear_grows p fs fs' : way_clear p fs → grows fs fs' → way_clear p fs'.
Proof. intros Hclear (_ & _ & Hfile) k Hk. by apply (Hclear k), Hfile. Qed.

Lemma path_eta p : PurePath (is_absolute p) (take (length (parts p)) (parts p)) = p.
Proof. destruct p as [a l]. cbn. by rewrite firstn_all. Qed.

Lemma way_clear_self p fs : way_clear p fs → nodes fs !! p ≠ Some File.
Proof.
  intros Hclear. specialize (Hclear (length (parts p))).
  by rewrite path_eta in Hclear.
Qed.

Lemma way_clear_parent p fs : way_clear p fs → way_clear (parent p) fs.
Proof.
  intros Hclear k. unfold parent. cbn [is_absolute parts].
  rewrite removelast_firstn_len, firstn_firstn. apply Hclear.
Qed.

Lemma is_dir_exists p fs : is_dir p fs = true → exists_ p fs = true.
Proof.
  unfold is_dir, exists_. destruct (parts p); [done|].
  intros Hdir. apply bool_decide_eq_true in Hdir.
  apply bool_decide_eq_true. eauto.
Qed.

Lemma exists_not_file p fs :
  exists_ p fs = true → nodes fs !! p ≠ Some File → is_dir p fs = true.
Proof.
  unfold is_dir, exists_. destruct (parts p); [done|].
  intros Hex Hfile. apply bool_decide_eq_true in Hex as [[] Hnode];
    [by apply bool_decide_eq_true|done].
Qed.

Lemma grows_insert p fs ro :
  ro = read_only fs →
  grows fs {| nodes := <[p := Dir]> (nodes fs); read_only := ro |}.
Proof.
  intros Hro. split; [done|]. split.
  - intros q Hq. unfold is_dir in *. cbn [nodes]. destruct (parts q); [done|].
    apply bool_decide_eq_true in Hq. apply bool_decide_eq_true.
    destruct (decide (p = q)) as [->|Hne];
      [by rewrite lookup_insert_eq|by rewrite lookup_insert_ne].
  - intros q. cbn [nodes]. destruct (decide (p = q)) as [->|Hne];
      [by rewrite lookup_insert_eq|by rewrite lookup_insert_ne].
Qed.

(** [mkdir] when the parent is a directory: the entry is there
    afterwards. *)
Lemma mem_mkdir_in_directory fuel p parents fs :
  read_only fs = false →
  way_clear p fs →
  is_dir (parent p) fs = true →
  ∃ fs', mem_mkdir fuel p parents true fs = (None, fs')
         ∧ is_dir p fs' = true ∧ grows fs fs'.
Proof.
  intros Hrw Hclear Hparent. rewrite mem_mkdir_eq. unfold os_mkdir.
  destruct (exists_ p fs) eqn:Hex.
  - pose proof (exists_not_file _ _ Hex (way_clear_self _ _ Hclear)) as Hdir.
    rewrite Hdir. exists fs. by split; [|split; [|apply grows_refl]].
  - rewrite (is_dir_exists _ _ Hparent), Hparent, Hrw. cbn [negb].
    eexists. split; [reflexivity|]. split; [|by apply grows_insert].
    unfold is_dir, exists_ in *. cbn [nodes]. destruct (parts p); [done|].
    apply bool_decide_eq_true, lookup_insert_eq.
Qed.

(** [mkdir(parents=True, exist_ok=True)] on a writable disk with no file
    in the way: the directory is there afterwards. *)
Lemma mem_mkdir_creates fuel : ∀ p fs,
  (length (parts p) ≤ fuel)%nat →
  read_only fs = false →
  way_clear p fs →
  ∃ fs', mem_mkdir fuel p true true fs = (None, fs')
         ∧ is_dir p fs' = true ∧ grows fs fs'.
Proof.
  induction fuel as [|f IH]; intros p fs Hlen Hrw Hclear.
  - apply mem_mkdir_in_directory; [done..|].
    unfold is_dir, parent. cbn [parts].
    destruct (parts p); [done|cbn in Hlen; lia].
  - destruct (is_dir (parent p) fs) eqn:Hparent;
      [by apply mem_mkdir_in_directory|].
    rewrite mem_mkdir_eq. unfold os_mkdir.
    destruct (exists_ p fs) eqn:Hex.
    { pose proof (exists_not_file _ _ Hex (way_clear_self _ _ Hclear)) as Hdir.
      rewrite Hdir. exists fs. by split; [|split; [|apply grows_refl]]. }
    destruct (exists_ (parent p) fs) eqn:Hpex.
    { rewrite (exists_not_file _ _ Hpex) in Hparent; [done|].
      apply way_clear_self, way_clear_parent, Hclear. }
    cbn [negb orb].
    assert (parts p ≠ []) as Hparts.
    { intros Hnil. unfold exists_ in Hex. by rewrite Hnil in Hex. }
    rewrite bool_decide_eq_false_2.
    2:{ intros Heq. apply (f_equal (λ q, length (parts q))) in Heq.
        unfold parent in Heq. cbn [parts] in Heq.
        rewrite removelast_firstn_len, length_take in Heq.
        destruct (parts p); [done|cbn in Heq; lia]. }
    destruct (IH (parent p) fs) as (fs1 & Hrun1 & Hdir1 & Hgrow1);
      [|done|by apply way_clear_parent|].
    { unfold parent. cbn [parts].
      rewrite removelast_firstn_len, length_take.
      destruct (parts p); [done|cbn in Hlen |- *; lia]. }
    rewrite Hrun1.
    destruct (mem_mkdir_in_directory f p false fs1)
      as (fs2 & Hrun2 & Hdir2 & Hgrow2);
      [destruct Hgrow1 as (-> & _); done
      |by apply (way_clear_grows _ fs)|done|].
    exists fs2. split; [done|]. split; [done|].
    by apply (grows_trans _ fs1).
Qed.

Lemma for_each_mkdir_creates (xs : list value) : ∀ s : @state MemFS,
  read_only (disk s) = false →
  (∀ x, x ∈ xs → ∃ p, x = VPath p ∧ way_clear p (disk s)) →
  ∃ s',
    for_each (H := MemFS) xs
      (λ p,
         try_except_M (mkdir p true true) [Exception]
           (λ exc,
              logger_debug "Failed to create directory %s: %s"
                [value_str p; exn_str exc])) s
    = (Ok (), s')
    ∧ os_environ s' = os_environ s
    ∧ log s' = log s
    ∧ grows (disk s) (disk s')
    ∧ ∀ p, VPath p ∈ xs → is_dir p (disk s') = true.
Proof.
  induction xs as [|x xs IH]; intros s Hrw Hxs; cbn [for_each].
  - exists s. split; [done|]. split; [done|]. split; [done|].
    split; [apply grows_refl|]. intros p Hp. by apply elem_of_nil in Hp.
  - destruct (Hxs x ltac:(by left)) as (p & -> & Hclear).
    destruct (mem_mkdir_creates (S (length (parts p))) p (disk s)
                ltac:(lia) Hrw Hclear)
      as (fs1 & Hrun & Hdir & Hgrow).
    set (s1 := @State MemFS (os_environ s) fs1 (log s)).
    assert (try_except_M (H := MemFS) (mkdir (VPath p) true true) [Exception]
              (λ exc,
                 logger_debug "Failed to create directory %s: %s"
                   [value_str (VPath p); exn_str exc]) s
            = (Ok (), s1)) as Hstep.
    { unfold try_except_M, mkdir. cbn [path_mkdir MemFS]. by rewrite Hrun. }
    rewrite (bind_ok _ _ _ _ _ Hstep).
    destruct (IH s1) as (s' & Hrest & Henv & Hlog & Hgrow' & Hdirs).
    { destruct Hgrow as (Hro & _). unfold s1. cbn [disk]. congruence. }
    { intros y Hy. destruct (Hxs y ltac:(by right)) as (q & -> & Hq).
      exists q. split; [done|]. by apply (way_clear_grows _ (disk s)). }
    exists s'. split; [done|]. split; [done|]. split; [done|].
    split; [by apply (grows_trans _ fs1)|].
    intros q Hq. apply elem_of_cons in Hq as [Heq | Hq]; [|by apply Hdirs].
    injection Heq as ->. destruct Hgrow' as (_ & Hkeep & _). by apply Hkeep.
Qed.

(** X11: on the in-memory file system, when the disk is writable and no
    regular file stands at one of the three directories or above it,
    [ensure_dirs] creates what is missing: afterwards all three are
    directories, every directory that was there still is, no regular file
    has appeared, and nothing has been logged. *)
Theorem ensure_dirs_creates_directories cls (s : @state MemFS) m d u :
  getattr cls "MODEL_DIR" = Ok (VPath m) →
  getattr cls "DATA_DIR" = Ok (VPath d) →
  getattr cls "UPLOAD_FOLDER" = Ok (VPath u) →
  read_only (disk s) = false →
  way_clear m (disk s) →
  way_clear d (disk s) →
  way_clear u (disk s) →
  ∃ s',
    ensure_dirs (H := MemFS) cls s = (Ok (), s')
    ∧ os_environ s' = os_environ s
    ∧ log s' = log s
    ∧ is_dir m (disk s') = true
    ∧ is_dir d (disk s') = true
    ∧ is_dir u (disk s') = true
    ∧ grows (disk s) (disk s').
Proof.
  intros Hm Hd Hu Hrw Hcm Hcd Hcu.
  rewrite (ensure_dirs_loop (H := MemFS) cls s _ _ _ Hm Hd Hu).
  destruct (for_each_mkdir_creates
              (elements ({[VPath m; VPath d; VPath u]} : gset value)) s Hrw)
    as (s' & Hrun & Henv & Hlog & Hgrow & Hdirs).
  { intros x Hx. apply elem_of_three in Hx.
    destruct Hx as [-> | [-> | ->]]; eauto. }
  exists s'. split; [done|]. split; [done|]. split; [done|].
  split; [apply Hdirs, elem_of_three; auto|].
  split; [apply Hdirs, elem_of_three; auto|].
  split; [apply Hdirs, elem_of_three; auto|done].
Qed.

Lemma ensure_dirs_creates_directories_witness :
  ∃ g,
    import_module ∅ sample_file = Ok g
    ∧ ∃ s',
        ensure_dirs (H := MemFS) (ProductionConfig g) (sample_state ∅)
        = (Ok (), s')
        ∧ is_dir (PurePath true ["srv"; "app"; "data"; "uploads"]) (disk s')
          = true.
Proof.
  eexists. split; [reflexivity|].
  match goal with
  | |- context [ProductionConfig ?g] =>
      edestruct (ensure_dirs_creates_directories
                   (ProductionConfig g) (sample_state ∅))
        as (s' & Hrun & _ & _ & _ & _ & Huploads & _)
  end.
  - reflexivity.
  - reflexivity.
  - reflexivity.
  - reflexivity.
  - intros k. cbn [sample_state disk nodes]. by rewrite lookup_empty.
  - intros k. cbn [sample_state disk nodes]. by rewrite lookup_empty.
  - intros k. cbn [sample_state disk nodes]. by rewrite lookup_empty.
  - exists s'. split; [exact Hrun|exact Huploads].
Defined.

(** ** The resolver on the in-memory file system *)

Lemma profile_directories env file g cfg :
  import_module env file = Ok g →
  cfg = DevelopmentConfig g ∨ cfg = ProductionConfig g →
  getattr cfg "MODEL_DIR" = Ok (VPath (PROJECT_ROOT g / "ml" / "models"))
  ∧ getattr cfg "DATA_DIR" = Ok (VPath (PROJECT_ROOT g / "data"))
  ∧ getattr cfg "UPLOAD_FOLDER"
    = Ok (VPath (PROJECT_ROOT g / "data" / "uploads")).
Proof.
  intros Himp Hcfg. open_module Himp.
  destruct Hcfg as [-> | ->]; (split; [|split]); by class_attr.
Qed.

Lemma way_clear_data root fs :
  way_clear (root / "data" / "uploads") fs → way_clear (root / "data") fs.
Proof.
  intros Hclear. apply way_clear_parent in Hclear.
  rewrite !truediv_clean in Hclear by clean_literal.
  unfold parent in Hclear. cbn [is_absolute parts] in Hclear.
  rewrite removelast_last in Hclear.
  by rewrite truediv_clean by clean_literal.
Qed.

(** X12: on the in-memory file system, with a writable disk and no regular
    file in the way, a call leaves the three directories of the profile it
    returns in place, and a second call with the same name returns the same
    profile and leaves the disk as the first one left it. *)
Theorem get_config_makes_directories env file g name (s : @state MemFS) :
  import_module env file = Ok g →
  read_only (disk s) = false →
  way_clear (PROJECT_ROOT g / "ml" / "models") (disk s) →
  way_clear (PROJECT_ROOT g / "data" / "uploads") (disk s) →
  ∃ cfg s1 s2 m d u,
    get_config (H := MemFS) g name s = (Ok cfg, s1)
    ∧ getattr cfg "MODEL_DIR" = Ok (VPath m)
    ∧ getattr cfg "DATA_DIR" = Ok (VPath d)
    ∧ getattr cfg "UPLOAD_FOLDER" = Ok (VPath u)
    ∧ is_dir m (disk s1) = true
    ∧ is_dir d (disk s1) = true
    ∧ is_dir u (disk s1) = true
    ∧ get_config (H := MemFS) g name s1 = (Ok cfg, s2)
    ∧ disk s2 = disk s1.
Proof.
  intros Himp Hrw Hcm Hcu.
  pose proof (import_module_loaded _ _ _ Himp) as Hg.
  pose proof (way_clear_data _ _ Hcu) as Hcd.
  destruct (get_config_run (H := MemFS) env g name s Hg)
    as (s1 & Hdirs & Henv1 & Hrun1).
  set (key := lower (or_str (if truthy name then name
                             else getenv (os_environ s) "FLASK_ENV")
                       "default")) in *.
  set (cfg := dict_get (config_by_name g) key (DevelopmentConfig g)) in *.
  assert (cfg = DevelopmentConfig g ∨ cfg = ProductionConfig g) as Hcfg.
  { unfold cfg, dict_get. rewrite (registry_lookup _ _ key Hg).
    repeat case_decide; auto. }
  destruct (profile_directories _ _ _ cfg Himp Hcfg) as (Hm & Hd & Hu).
  rewrite (ensure_dirs_loop (H := MemFS) cfg s _ _ _ Hm Hd Hu) in Hdirs.
  destruct (for_each_mkdir_creates
              (elements ({[VPath (PROJECT_ROOT g / "ml" / "models")%path;
                           VPath (PROJECT_ROOT g / "data")%path;
                           VPath (PROJECT_ROOT g / "data" / "uploads")%path]}
                         : gset value)) s Hrw)
    as (s1' & Hdirs' & _ & _ & _ & Hmade).
  { intros x Hx. apply elem_of_three in Hx.
    destruct Hx as [-> | [-> | ->]]; eauto. }
  assert (s1' = s1) as -> by congruence.
  assert (is_dir (PROJECT_ROOT g / "ml" / "models") (disk s1) = true) as Hdm
    by (apply Hmade, elem_of_three; auto).
  assert (is_dir (PROJECT_ROOT g / "data") (disk s1) = true) as Hdd
    by (apply Hmade, elem_of_three; auto).
  assert (is_dir (PROJECT_ROOT g / "data" / "uploads") (disk s1) = true)
    as Hdu by (apply Hmade, elem_of_three; auto).
  destruct (get_config (H := MemFS) g name s) as [r sa] eqn:Hcall.
  injection Hrun1 as -> Hsa.
  assert (disk sa = disk s1 ∧ os_environ sa = os_environ s) as [Hdisk Hsenv].
  { rewrite Hsa. by repeat case_decide. }
  destruct (get_config_run (H := MemFS) env g name sa Hg)
    as (s2 & Hdirs2 & _ & Hrun2).
  rewrite Hsenv in Hdirs2, Hrun2. fold key in Hdirs2, Hrun2.
  fold cfg in Hdirs2, Hrun2.
  rewrite (ensure_dirs_loop (H := MemFS) cfg sa _ _ _ Hm Hd Hu) in Hdirs2.
  rewrite for_each_fixed in Hdirs2.
  2:{ intros x Hx. apply elem_of_three in Hx.
      destruct Hx as [-> | [-> | ->]];
        apply mkdir_guarded_existing; by rewrite Hdisk. }
  injection Hdirs2 as <-.
  eexists cfg, sa, _, _, _, _.
  split; [done|]. split; [exact Hm|]. split; [exact Hd|]. split; [exact Hu|].
  rewrite Hdisk. split; [done|]. split; [done|]. split; [done|].
  split; [exact Hrun2|]. by repeat case_decide.
Qed.

Lemma get_config_makes_directories_witness :
  ∃ g,
    import_module ∅ sample_file = Ok g
    ∧ ∃ cfg s1,
        get_config (H := MemFS) g (Some "production") (sample_state ∅)
        = (Ok cfg, s1)
        ∧ disk (snd (get_config (H := MemFS) g (Some "production") s1))
          = disk s1.
Proof.
  eexists. split; [reflexivity|].
  edestruct (get_config_makes_directories ∅ sample_file)
    with (name := Some "production") (s := sample_state ∅)
    as (cfg & s1 & s2 & m & d & u & Hrun & _ & _ & _ & _ & _ & _ & Hrun2
        & Hdisk).
  - reflexivity.
  - reflexivity.
  - intros k. cbn [sample_state disk nodes]. by rewrite lookup_empty.
  - intros k. cbn [sample_state disk nodes]. by rewrite lookup_empty.
  - exists cfg, s1. split; [exact Hrun|]. by rewrite Hrun2.
Defined.
